(** * goptuna-libffm: the objective function and the trial scheduler of main.go

    A shallow embedding of the four variants of [main.go] kept in this
    repository (the three documents of [src/main.go] and
    [src/unnamed/part_000]), with the Go runtime pieces they rest on:
    float64 values, [strconv], [encoding/json], [fmt], the file system, the
    external [ffm-train] process, channels, contexts and wait groups. *)

From Stdlib Require Import ZArith SpecFloat DecimalString Ascii String.
From stdpp Require Import gmap strings list.

Set Warnings "-register-all".

Open Scope string_scope.
Open Scope Z_scope.

(** * Go values *)

(** An [error] value is kept by its message; the nil error is [None].  The
    messages of the Go runtime are rendered approximately, only nil-ness and
    the text added by [main.go] itself are exact. *)
Definition error := string.

(** [float64] is IEEE 754 binary64: precision 53, maximal exponent 1024. *)
Definition float64 := spec_float.
Definition prec : Z := 53.
Definition emax : Z := 1024.

(** Go's [x == y] on float64 (both zeros are equal, NaN equals nothing). *)
Definition float64_eq (x y : float64) : bool := SFeqb x y.

(** The value of the decimal [(-1)^neg * m * 10^e], rounded to the nearest
    binary64, ties to even. *)
Definition float64_of_decimal (neg : bool) (m e : Z) : float64 :=
  if m =? 0 then S754_zero neg
  else if 0 <=? e
       then binary_normalize prec emax ((if neg then - m else m) * 10 ^ e) 0 false
       else SFdiv prec emax (S754_finite neg (Z.to_pos m) 0)
                            (S754_finite false (Z.to_pos (10 ^ (- e))) 0).

(** The float64 constants of the program text. *)
Definition f64_0 : float64 := S754_zero false.
Definition f64_m1 : float64 := Eval vm_compute in float64_of_decimal true 1 0.
Definition f64_1 : float64 := Eval vm_compute in float64_of_decimal false 1 0.
Definition f64_1e_6 : float64 := Eval vm_compute in float64_of_decimal false 1 (-6).

(** Go's [int] on the 64-bit platforms the program runs on. *)
Definition int_min : Z := - 2 ^ 63.
Definition int_max : Z := 2 ^ 63 - 1.
Definition in_int (z : Z) : bool := (int_min <=? z) && (z <=? int_max).

(** * Characters *)

Definition code (c : ascii) : Z := Z.of_N (N_of_ascii c).
Definition chr (z : Z) : ascii := ascii_of_N (Z.to_N z).

Definition is_digit (c : ascii) : bool := (48 <=? code c) && (code c <=? 57).
Definition digit_val (c : ascii) : Z := code c - 48.

Definition hex_val (c : ascii) : option Z :=
  let n := code c in
  if (48 <=? n) && (n <=? 57) then Some (n - 48)
  else if (97 <=? n) && (n <=? 102) then Some (n - 87)
  else if (65 <=? n) && (n <=? 70) then Some (n - 55)
  else None.

(** Leading decimal digits of [s]: their value continued from [acc], how many
    there are, and what follows them. *)
Fixpoint take_digits (s : string) (acc : Z) (n : Z) : Z * Z * string :=
  match s with
  | String c r => if is_digit c then take_digits r (10 * acc + digit_val c) (n + 1)
                  else (acc, n, s)
  | EmptyString => (acc, n, s)
  end.

(** * strconv and the fmt verbs the program uses *)

Module strconv.

(** [strconv.ParseInt(s, 10, 64)]. *)
Definition ParseInt (s : string) : Z * option error :=
  let '(neg, body) :=
    match s with
    | String "-" r => (true, r)
    | String "+" r => (false, r)
    | _ => (false, s)
    end in
  match take_digits body 0 0 with
  | (v, n, EmptyString) =>
      if n =? 0 then (0, Some ("strconv.ParseInt: parsing " ++ s ++ ": invalid syntax"))
      else
        let z := if neg then - v else v in
        if in_int z then (z, None)
        else (if neg then int_min else int_max,
              Some ("strconv.ParseInt: parsing " ++ s ++ ": value out of range"))
  | _ => (0, Some ("strconv.ParseInt: parsing " ++ s ++ ": invalid syntax"))
  end.

(** The exponent part [e±ddd] of a decimal literal, when [s] is one. *)
Definition parse_exponent (s : string) : option Z :=
  match s with
  | EmptyString => Some 0
  | String c r =>
      if (code c =? 101) || (code c =? 69) then
        let '(eneg, digits) :=
          match r with
          | String "-" r' => (true, r')
          | String "+" r' => (false, r')
          | _ => (false, r)
          end in
        match take_digits digits 0 0 with
        | (v, n, EmptyString) => if n =? 0 then None else Some (if eneg then - v else v)
        | _ => None
        end
      else None
  end.

(** [strconv.ParseFloat(s, 64)] on decimal literals (the only spellings a
    JSON number can have): the nearest binary64, a range error beyond the
    largest one, zero below the smallest one. *)
Definition ParseFloat (s : string) : float64 * option error :=
  let syntax := (f64_0, Some ("strconv.ParseFloat: parsing " ++ s ++ ": invalid syntax")) in
  let '(neg, body) :=
    match s with
    | String "-" r => (true, r)
    | String "+" r => (false, r)
    | _ => (false, s)
    end in
  let '(ip, ni, after_int) := take_digits body 0 0 in
  let '(m, nf, after_frac) :=
    match after_int with
    | String "." r => let '(m, nf, rest) := take_digits r ip 0 in (m, nf, rest)
    | _ => (ip, 0, after_int)
    end in
  if ni + nf =? 0 then syntax
  else
    match parse_exponent after_frac with
    | None => syntax
    | Some e =>
        match float64_of_decimal neg m (e - nf) with
        | S754_infinity sg =>
            (S754_infinity sg,
             Some ("strconv.ParseFloat: parsing " ++ s ++ ": value out of range"))
        | f => (f, None)
        end
    end.

(** [fmt.Sprintf("%d", z)]. *)
Definition FormatInt (z : Z) : string := NilZero.string_of_int (Z.to_int z).

(** [s] padded with zeros on the left to [width] characters. *)
Fixpoint zeros (n : nat) : string :=
  match n with
  | O => ""
  | S k => "0" ++ zeros k
  end.

Definition pad_left (width : nat) (s : string) : string :=
  zeros (width - String.length s) ++ s.

(** The integer nearest to [m * 2^e * 10^6], ties to even. *)
Definition scaled_micro (m : positive) (e : Z) : Z :=
  if 0 <=? e then Zpos m * 2 ^ e * 1000000
  else
    let num := Zpos m * 1000000 in
    let den := 2 ^ (- e) in
    let q := num / den in
    let r := num mod den in
    match 2 * r ?= den with
    | Lt => q
    | Gt => q + 1
    | Eq => if Z.even q then q else q + 1
    end.

(** [fmt.Sprintf("%f", x)]: six digits after the point, rounded from the
    exact binary value. *)
Definition FormatFloat_f (x : float64) : string :=
  match x with
  | S754_nan => "NaN"
  | S754_infinity false => "+Inf"
  | S754_infinity true => "-Inf"
  | S754_zero sg => (if sg then "-" else "") ++ "0.000000"
  | S754_finite sg m e =>
      let n := scaled_micro m e in
      (if sg then "-" else "")
        ++ FormatInt (n / 1000000) ++ "." ++ pad_left 6 (FormatInt (n mod 1000000))
  end.

End strconv.

(** * encoding/json *)

(** What [json.Unmarshal(jsonStr, &result)] does: the syntax of JSON texts,
    and the decoding of an object into a struct with an int and a float64
    field.  Bytes of a string that are not valid UTF-8 are kept as they are,
    where Go puts U+FFFD (a key with such bytes names no field either way),
    and the bound that later versions of Go put on the depth of nesting is
    left out. *)

Module json.

(** A JSON text after scanning: numbers keep their literal, strings are
    unquoted to UTF-8 bytes. *)
Inductive value :=
| Null
| Bool (b : bool)
| Number (lit : string)
| Str (s : string)
| Array (xs : list value)
| Object (members : list (string * value)).

Definition is_space (c : ascii) : bool :=
  let n := code c in (n =? 32) || (n =? 9) || (n =? 10) || (n =? 13).

Fixpoint skip_space (s : string) : string :=
  match s with
  | String c r => if is_space c then skip_space r else s
  | EmptyString => s
  end.

(** [s] without the prefix [p], when it starts with it. *)
Fixpoint strip_prefix (p s : string) : option string :=
  match p, s with
  | EmptyString, _ => Some s
  | String a p', String b s' => if Ascii.eqb a b then strip_prefix p' s' else None
  | String _ _, EmptyString => None
  end.

(** Consecutive digits at the head of [s], and the rest. *)
Fixpoint span_digits (s : string) : string * string :=
  match s with
  | String c r =>
      if is_digit c then let '(d, rest) := span_digits r in (String c d, rest)
      else (EmptyString, s)
  | EmptyString => (EmptyString, s)
  end.

(** [s] split after its first character when that is [c]. *)
Definition eat (c : ascii) (s : string) : option string :=
  match s with
  | String a r => if Ascii.eqb a c then Some r else None
  | EmptyString => None
  end.

(** An integer part: digits, without a leading zero unless it is the single
    digit 0. *)
Definition int_part_ok (ip : string) : bool :=
  match ip with
  | EmptyString => false
  | String c EmptyString => true
  | String c (String _ _) => negb (Ascii.eqb c "0")
  end.

(** An optional fraction: a point and at least one digit. *)
Definition scan_fraction (s : string) : option (string * string) :=
  match eat "." s with
  | Some r =>
      let '(fp, rest) := span_digits r in
      match fp with
      | EmptyString => None
      | _ => Some ("." ++ fp, rest)
      end
  | None => Some ("", s)
  end.

(** An optional exponent: [e] or [E], an optional sign, at least one
    digit. *)
Definition scan_exponent (s : string) : option (string * string) :=
  match s with
  | String c r =>
      if Ascii.eqb c "e" || Ascii.eqb c "E" then
        let '(esign, r1) :=
          match eat "-" r, eat "+" r with
          | Some r', _ => ("-", r')
          | None, Some r' => ("+", r')
          | None, None => ("", r)
          end in
        let '(ep, rest) := span_digits r1 in
        match ep with
        | EmptyString => None
        | _ => Some (String c (esign ++ ep), rest)
        end
      else Some ("", s)
  | EmptyString => Some ("", s)
  end.

(** A number literal at the head of [s]: an optional minus sign, an
    integer part, an optional fraction, an optional exponent. *)
Definition scan_number (s : string) : option (string * string) :=
  let '(sign, s1) :=
    match eat "-" s with
    | Some r => ("-", r)
    | None => ("", s)
    end in
  let '(ip, s2) := span_digits s1 in
  if negb (int_part_ok ip) then None
  else
    match scan_fraction s2 with
    | None => None
    | Some (fp, s3) =>
        match scan_exponent s3 with
        | None => None
        | Some (ex, s4) => Some (sign ++ ip ++ fp ++ ex, s4)
        end
    end.

(** The UTF-8 bytes of a code point. *)
Definition utf8 (cp : Z) : string :=
  if cp <? 128 then String (chr cp) ""
  else if cp <? 2048 then
    String (chr (192 + cp / 64)) (String (chr (128 + cp mod 64)) "")
  else if cp <? 65536 then
    String (chr (224 + cp / 4096))
      (String (chr (128 + (cp / 64) mod 64)) (String (chr (128 + cp mod 64)) ""))
  else
    String (chr (240 + cp / 262144))
      (String (chr (128 + (cp / 4096) mod 64))
         (String (chr (128 + (cp / 64) mod 64)) (String (chr (128 + cp mod 64)) ""))).

(** Four hexadecimal digits at the head of [s]. *)
Definition hex4 (s : string) : option (Z * string) :=
  match s with
  | String a (String b (String c (String d r))) =>
      match hex_val a, hex_val b, hex_val c, hex_val d with
      | Some x, Some y, Some z, Some w => Some (((x * 16 + y) * 16 + z) * 16 + w, r)
      | _, _, _, _ => None
      end
  | _ => None
  end.

Definition is_surrogate (cp : Z) : bool := (55296 <=? cp) && (cp <? 57344).

(** What follows [\u]: one code unit, or a surrogate pair; a surrogate
    without its partner becomes U+FFFD. *)
Definition unescape_u (s : string) : option (string * string) :=
  match hex4 s with
  | None => None
  | Some (hi, r) =>
      if is_surrogate hi then
        match strip_prefix "\u" r with
        | Some r1 =>
            match hex4 r1 with
            | Some (lo, r2) =>
                if (hi <? 56320) && (56320 <=? lo) && (lo <? 57344)
                then Some (utf8 (65536 + (hi - 55296) * 1024 + (lo - 56320)), r2)
                else Some (utf8 65533, r)
            | None => Some (utf8 65533, r)
            end
        | None => Some (utf8 65533, r)
        end
      else Some (utf8 hi, r)
  end.

(** The character a one-letter escape stands for. *)
Definition simple_escape (e : ascii) : option ascii :=
  let n := code e in
  if (n =? 34) || (n =? 92) || (n =? 47) then Some e
  else if n =? 98 then Some (chr 8)
  else if n =? 102 then Some (chr 12)
  else if n =? 110 then Some (chr 10)
  else if n =? 114 then Some (chr 13)
  else if n =? 116 then Some (chr 9)
  else None.

(** The body of a string literal after its opening quote, unquoted, and
    what follows the closing quote.  Every call has consumed a character, so
    a fuel above the length of [s] is never exhausted
    ([scan_string_fuel]). *)
Fixpoint scan_string (fuel : nat) (s : string) : option (string * string) :=
  match fuel with
  | O => None
  | S fuel' =>
      match s with
      | EmptyString => None
      | String c r =>
          if code c =? 34 then Some ("", r)
          else if code c <? 32 then None
          else if code c =? 92 then
            match r with
            | String e r' =>
                if code e =? 117 then
                  match unescape_u r' with
                  | Some (bytes, r'') =>
                      match scan_string fuel' r'' with
                      | Some (body, rest) => Some (bytes ++ body, rest)
                      | None => None
                      end
                  | None => None
                  end
                else
                  match simple_escape e with
                  | Some ch =>
                      match scan_string fuel' r' with
                      | Some (body, rest) => Some (String ch body, rest)
                      | None => None
                      end
                  | None => None
                  end
            | EmptyString => None
            end
          else
            match scan_string fuel' r with
            | Some (body, rest) => Some (String c body, rest)
            | None => None
            end
      end
  end.

(** One JSON value at the head of [s] (after white space), and the rest.
    Every nested call has consumed a character, so a fuel above twice the
    length of [s] is never exhausted ([scan_value_fuel]). *)
Fixpoint scan_value (fuel : nat) (s : string) : option (value * string) :=
  match fuel with
  | O => None
  | S fuel' =>
      match skip_space s with
      | EmptyString => None
      | String c r =>
          if Ascii.eqb c "n" then
            match strip_prefix "ull" r with Some r' => Some (Null, r') | None => None end
          else if Ascii.eqb c "t" then
            match strip_prefix "rue" r with Some r' => Some (Bool true, r') | None => None end
          else if Ascii.eqb c "f" then
            match strip_prefix "alse" r with Some r' => Some (Bool false, r') | None => None end
          else if code c =? 34 then
            match scan_string (S (String.length r)) r with
            | Some (str, r') => Some (Str str, r')
            | None => None
            end
          else if Ascii.eqb c "[" then
            match eat "]" (skip_space r) with
            | Some r' => Some (Array [], r')
            | None => scan_elements fuel' r []
            end
          else if Ascii.eqb c "{" then
            match eat "}" (skip_space r) with
            | Some r' => Some (Object [], r')
            | None => scan_members fuel' r []
            end
          else
            match scan_number (String c r) with
            | Some (lit, r') => Some (Number lit, r')
            | None => None
            end
      end
  end
with scan_elements (fuel : nat) (s : string) (acc : list value) : option (value * string) :=
  match fuel with
  | O => None
  | S fuel' =>
      match scan_value fuel' s with
      | Some (v, r) =>
          match eat "," (skip_space r), eat "]" (skip_space r) with
          | Some r', _ => scan_elements fuel' r' (v :: acc)
          | None, Some r' => Some (Array (rev (v :: acc)), r')
          | None, None => None
          end
      | None => None
      end
  end
with scan_members (fuel : nat) (s : string) (acc : list (string * value)) : option (value * string) :=
  match fuel with
  | O => None
  | S fuel' =>
      match skip_space s with
      | String c r =>
          if code c =? 34 then
            match scan_string (S (String.length r)) r with
            | Some (key, r1) =>
                match eat ":" (skip_space r1) with
                | Some r2 =>
                    match scan_value fuel' r2 with
                    | Some (v, r3) =>
                        match eat "," (skip_space r3), eat "}" (skip_space r3) with
                        | Some r4, _ => scan_members fuel' r4 ((key, v) :: acc)
                        | None, Some r4 => Some (Object (rev ((key, v) :: acc)), r4)
                        | None, None => None
                        end
                    | None => None
                    end
                | None => None
                end
            | None => None
            end
          else None
      | EmptyString => None
      end
  end.

(** The whole text as one JSON value ([checkValid]): [None] is a syntax
    error. *)
Definition scan (data : string) : option value :=
  match scan_value (S (2 * String.length data)) data with
  | Some (v, rest) =>
      match skip_space rest with
      | EmptyString => Some v
      | _ => None
      end
  | None => None
  end.

(** ** Decoding into the struct of [objective] *)

(** [var result struct { BestIteration int `json:"best_iteration"`;
    BestVALoss float64 `json:"best_va_loss"` }]. *)
Record result := mkResult { BestIteration : Z; BestVALoss : float64 }.

(** The zero value of the struct, as [var result] declares it. *)
Definition zero : result := {| BestIteration := 0; BestVALoss := f64_0 |}.

Inductive field := FBestIteration | FBestVALoss.

Definition tag (f : field) : string :=
  match f with
  | FBestIteration => "best_iteration"
  | FBestVALoss => "best_va_loss"
  end.

Definition lower (c : ascii) : ascii :=
  if (65 <=? code c) && (code c <=? 90) then chr (code c + 32) else c.

(** Simple case folding, as far as it reaches ASCII: upper case letters,
    and the two code points that fold to a letter, U+017F (long s, bytes
    197 191) and U+212A (Kelvin sign, bytes 226 132 170). *)
Fixpoint fold_name (s : string) : string :=
  match s with
  | EmptyString => ""
  | String a r =>
      match r with
      | String b r1 =>
          if (code a =? 197) && (code b =? 191) then String "s" (fold_name r1)
          else
            match r1 with
            | String c r2 =>
                if (code a =? 226) && (code b =? 132) && (code c =? 170)
                then String "k" (fold_name r2)
                else String (lower a) (fold_name r)
            | EmptyString => String (lower a) (fold_name r)
            end
      | EmptyString => String (lower a) (fold_name r)
      end
  end.

(** The struct field an object key names: the exact tag first, then a
    match up to case; any other key is skipped. *)
Definition field_by_name (key : string) : option field :=
  if String.eqb key (tag FBestIteration) then Some FBestIteration
  else if String.eqb key (tag FBestVALoss) then Some FBestVALoss
  else if String.eqb (fold_name key) (tag FBestIteration) then Some FBestIteration
  else if String.eqb (fold_name key) (tag FBestVALoss) then Some FBestVALoss
  else None.

Definition kind (v : value) : string :=
  match v with
  | Null => "null"
  | Bool _ => "bool"
  | Number lit => "number " ++ lit
  | Str _ => "string"
  | Array _ => "array"
  | Object _ => "object"
  end.

Definition type_error (v : value) (f : field) : error :=
  "json: cannot unmarshal " ++ kind v ++ " into Go struct field ." ++ tag f
    ++ " of type " ++ match f with FBestIteration => "int" | FBestVALoss => "float64" end.

(** One member stored into its field: [null] leaves the field as it is, a
    number must fit the field's type, anything else is a type error. *)
Definition store (f : field) (v : value) (r : result) : result * option error :=
  match v with
  | Null => (r, None)
  | Number lit =>
      match f with
      | FBestIteration =>
          match strconv.ParseInt lit with
          | (n, None) => ({| BestIteration := n; BestVALoss := BestVALoss r |}, None)
          | (_, Some _) => (r, Some (type_error v f))
          end
      | FBestVALoss =>
          match strconv.ParseFloat lit with
          | (x, None) => ({| BestIteration := BestIteration r; BestVALoss := x |}, None)
          | (_, Some _) => (r, Some (type_error v f))
          end
      end
  | _ => (r, Some (type_error v f))
  end.

(** The members of an object, in order; the first error is kept and
    decoding goes on. *)
Fixpoint store_members (ms : list (string * value)) (r : result) (saved : option error)
  : result * option error :=
  match ms with
  | [] => (r, saved)
  | (key, v) :: rest =>
      match field_by_name key with
      | None => store_members rest r saved
      | Some f =>
          let '(r', err) := store f v r in
          store_members rest r' (match saved with Some e => Some e | None => err end)
      end
  end.

(** [json.Unmarshal(data, &result)]: the struct after the call, and the
    error. *)
Definition Unmarshal (data : string) (r : result) : result * option error :=
  match scan data with
  | None => (r, Some "json: syntax error")
  | Some Null => (r, None)
  | Some (Object ms) => store_members ms r None
  | Some v => (r, Some ("json: cannot unmarshal " ++ kind v ++ " into Go value of type struct"))
  end.

End json.

(** * The world of one evaluation *)

(** How a run of the external command ended, as [cmd.Run] sees it. *)
Inductive RunResult :=
| Exited (status : Z)         (* it ran and exited with this status *)
| Killed                      (* its context was cancelled while it ran: it was killed *)
| NotStarted (msg : error).   (* it could not be started *)

(** What one run of the external command does: how it ends, what it makes
    of the file system, and what it prints. *)
Record Process := mkProcess {
  p_result : RunResult;
  p_files : gmap string string -> gmap string string;
  p_stdout : string;
  p_stderr : string
}.

(** The surroundings of the program: its environment variables, and what
    running a binary with given arguments does. *)
Record Env := mkEnv {
  environ : gmap string string;
  exec : string -> list string -> Process
}.

(** The context a command is bound to: none ([exec.Command]), or the one
    the study carries ([trial.GetContext()]). *)
Inductive Context := StudyContext.

(** A [goptuna.Trial] as [objective] meets it: what the sampler and the
    storage answer. *)
Record Trial := mkTrial {
  SuggestLogUniform : string -> float64 -> float64 -> float64 * option error;
  SuggestInt : string -> Z -> Z -> Z * option error;
  Number : Z * option error;
  GetContext : Context;
  SetUserAttr_error : string -> string -> option error
}.

(** What an evaluation does to the outside, in order. *)
Inductive Event :=
| EvRun (ctx : option Context) (path : string) (args : list string) (r : RunResult)
| EvReadFile (path : string) (ok : bool)
| EvSetUserAttr (key val : string) (ok : bool).

(** The state an evaluation works on: the files, the user attributes the
    storage holds for the trial, and the events so far (latest last). *)
Record World := mkWorld {
  files : gmap string string;
  attrs : gmap string string;
  events : list Event
}.

Definition emit (e : Event) (w : World) : World :=
  {| files := files w; attrs := attrs w; events := events w ++ [e] |}.

(** [os.Getenv]: the empty string when the variable is not set. *)
Definition Getenv (env : Env) (name : string) : string :=
  default "" (environ env !! name).

(** [cmd.Run()] of [exec.Command(path, args...)] (or [exec.CommandContext]):
    the output it captured, its error, and the world after it. *)
Definition Run (env : Env) (ctx : option Context) (path : string) (args : list string)
    (w : World) : (string * string * option error) * World :=
  let p := exec env path args in
  let w' := emit (EvRun ctx path args (p_result p))
              {| files := p_files p (files w); attrs := attrs w; events := events w |} in
  match p_result p with
  | Exited 0 => ((p_stdout p, p_stderr p, None), w')
  | Exited n => ((p_stdout p, p_stderr p, Some ("exit status " ++ strconv.FormatInt n)), w')
  | Killed => ((p_stdout p, p_stderr p, Some "signal: killed"), w')
  | NotStarted msg => (("", "", Some msg), emit (EvRun ctx path args (p_result p)) w)
  end.

(** [ioutil.ReadFile(path)]. *)
Definition ReadFile (path : string) (w : World) : (string * option error) * World :=
  match files w !! path with
  | Some data => ((data, None), emit (EvReadFile path true) w)
  | None => (("", Some ("open " ++ path ++ ": no such file or directory")),
             emit (EvReadFile path false) w)
  end.

(** [trial.SetUserAttr(key, value)]. *)
Definition SetUserAttr (trial : Trial) (key val : string) (w : World) : option error * World :=
  match SetUserAttr_error trial key val with
  | Some e => (Some e, emit (EvSetUserAttr key val false) w)
  | None => (None, emit (EvSetUserAttr key val true)
                     {| files := files w; attrs := <[key := val]> (attrs w); events := events w |})
  end.

(** * The study: trial records and the best trial *)

(** The state a finished trial is recorded with. *)
Inductive TrialState := Complete | Failed.

(** An [interface{}] value of the parameter map [GetBestParams] returns. *)
Inductive Iface := IFloat64 (x : float64) | IInt (n : Z).

(** The type assertion [x.(float64)] on a map entry: [None] is the panic of
    a failed assertion (a missing key gives the nil interface). *)
Definition assert_float64 (x : option Iface) : option float64 :=
  match x with
  | Some (IFloat64 f) => Some f
  | Some (IInt _) => None
  | None => None
  end.

(** A trial as the storage keeps it. *)
Record TrialRecord := mkTrialRecord {
  t_number : Z;
  t_state : TrialState;
  t_value : option float64;
  t_attrs : gmap string string;
  t_params : gmap string Iface
}.

Module goptuna.

Definition is_complete (t : TrialRecord) : bool :=
  match t_state t with
  | Complete => true
  | Failed => false
  end.

Definition value_of (t : TrialRecord) : float64 := default f64_0 (t_value t).

(** Modelled from the spec: the best trial of the study is found by the
    goptuna library, whose code is not part of this repository.  After
    section 4.4: only Complete trials are scanned, the one of minimum value
    is selected, and of two with the same value the first found wins. *)
Definition best_trial (trials : list TrialRecord) : option TrialRecord :=
  fold_left
    (fun acc t =>
       if is_complete t then
         match acc with
         | None => Some t
         | Some b => if SFltb (value_of t) (value_of b) then Some t else acc
         end
       else acc)
    trials None.

(** Modelled from the spec: [study.GetBestValue()] of the goptuna library
    (section 4.4, [BestOf]): the value of the best trial, or the zero value
    and an error when the study has no Complete trial. *)
Definition GetBestValue (trials : list TrialRecord) : float64 * option error :=
  match best_trial trials with
  | Some t => (value_of t, None)
  | None => (f64_0, Some "no complete trials")
  end.

(** Modelled from the spec: [study.GetBestParams()] of the goptuna library
    (section 4.4, [BestOf]): the parameters of the best trial, or the nil map
    and an error when the study has no Complete trial. *)
Definition GetBestParams (trials : list TrialRecord) : gmap string Iface * option error :=
  match best_trial trials with
  | Some t => (t_params t, None)
  | None => (∅, Some "no complete trials")
  end.

(** Modelled from the spec: the head of the loop of
    [study.Optimize(objective, evaluateMax)], a function of the goptuna
    library.  After section 4.2, with the count the call is given: the call
    returns nil once [evaluateMax] trials are done, returns the error of the
    context once it is cancelled, and evaluates the next trial otherwise
    ([None]). *)
Definition Optimize_returns (evaluateMax evaluateCnt : Z) (ctx_done : bool)
  : option (option error) :=
  if evaluateMax <=? evaluateCnt then Some None
  else if ctx_done then Some (Some "context canceled")
  else None.

(** Modelled from the spec: the record [study.Optimize] keeps of a trial
    (section 4.2, step e): Complete with the returned value when the error
    of the objective is nil, Failed with no value otherwise. *)
Definition record_trial (number : Z) (v : float64) (err : option error)
    (attrs : gmap string string) (params : gmap string Iface) : TrialRecord :=
  match err with
  | None => mkTrialRecord number Complete (Some v) attrs params
  | Some _ => mkTrialRecord number Failed None attrs params
  end.

(** Modelled from the spec: what [study.Optimize] does with the error of the
    objective (section 9): under the strict policy it returns it, under the
    lenient one it goes on to the next trial ([None]). *)
Definition stops_on (fail_fast : bool) (err : option error) : option error :=
  match err with
  | Some e => if fail_fast then Some e else None
  | None => None
  end.

End goptuna.

(** * The goroutines of main *)

(** The signals [signal.Notify] is asked to relay. *)
Inductive Signal := SIGINT | SIGTERM | SIGQUIT.

(** [sigch := make(chan os.Signal, 1)]: what is buffered, and whether the
    channel has been closed. *)
Record Chan := mkChan { buf : list Signal; closed : bool }.

(** The goroutine that waits for a signal (part_000, lines 119-127). *)
Inductive Listener :=
| LNotStarted
| LRecv                  (* at [sig, ok := <-sigch] *)
| LCancel (sig : Signal) (* a signal was received; at [cancel()] *)
| LLog (sig : Signal)    (* at the log call *)
| LDone.                 (* returned; [wg.Done()] has run *)

(** A goroutine that runs [study.Optimize(objective, 1000 / concurrency)]
    (part_000, lines 133-139), with the two counters of the call. *)
Inductive Worker :=
| WStart
| WOptimize (evaluateMax evaluateCnt : Z)
| WReturned (evaluateMax evaluateCnt : Z) (err : option error)
| WDone (evaluateMax evaluateCnt : Z) (err : option error).

(** The deferred calls of [main]. *)
Inductive Deferred := DCloseSigch | DCancel | DDbClose | DLoggerSync.

(** Where [main] is, from the statement after [signal.Notify] on. *)
Inductive MainPC :=
| MGoListener                          (* [wg.Add(1); go func() {...}()] *)
| MLoop (i : Z)                        (* the test [i < concurrency] *)
| MWait                                (* [wg.Wait()] *)
| MReport                              (* the best value and parameters *)
| MReturn (panicking : option string)  (* running the deferred calls *)
| MExited.

(** What the program writes to its log. *)
Inductive LogEntry :=
| LogSignal (sig : Signal)                        (* catch a kill signal *)
| LogOptimizeError (e : error)                    (* optimize catch error *)
| LogBest (v lambda eta latent : float64)         (* Best evaluation=... *)
| LogResult (v : float64) (params : gmap string Iface).

(** How the report at the end of [main] ends. *)
Inductive Reported :=
| Printed (e : LogEntry)
| Panicked (msg : string)
| Fatal (msg : string).

Record Machine := mkMachine {
  pc : MainPC;
  defers : list Deferred;          (* the next to run first *)
  sigch : Chan;
  ctx_done : bool;                 (* the context of the study is cancelled *)
  listener_cancels : nat;          (* calls of [cancel()] by the listener *)
  wg : Z;                          (* the counter of the wait group *)
  listener : Listener;
  workers : list Worker;
  disk : gmap string string;
  storage : list TrialRecord;
  log : list LogEntry;
  crashed : option string          (* the program died of a panic *)
}.

(** What a worker needs from outside to evaluate one trial: the surroundings
    of the process, the answers of the sampler and the storage, and the
    parameters the storage will report for the trial. *)
Record TrialInput := mkTrialInput {
  ti_env : Env;
  ti_trial : Trial;
  ti_params : gmap string Iface
}.

(** The steps of an execution, as the scheduler and the outside choose them. *)
Inductive Action :=
| ASignal (s : Signal)                  (* a signal is delivered to the process *)
| AListener                             (* the listener goroutine moves *)
| AWorker (i : nat)                     (* worker [i] moves, not evaluating *)
| ATrial (i : nat) (inp : TrialInput)   (* worker [i] evaluates one trial *)
| AMain.                                (* the main goroutine moves *)

Definition set_pc (v : MainPC) (m : Machine) : Machine :=
  mkMachine v (defers m) (sigch m) (ctx_done m) (listener_cancels m) (wg m)
    (listener m) (workers m) (disk m) (storage m) (log m) (crashed m).
Definition set_defers (v : list Deferred) (m : Machine) : Machine :=
  mkMachine (pc m) v (sigch m) (ctx_done m) (listener_cancels m) (wg m)
    (listener m) (workers m) (disk m) (storage m) (log m) (crashed m).
Definition set_sigch (v : Chan) (m : Machine) : Machine :=
  mkMachine (pc m) (defers m) v (ctx_done m) (listener_cancels m) (wg m)
    (listener m) (workers m) (disk m) (storage m) (log m) (crashed m).
Definition set_ctx_done (m : Machine) : Machine :=
  mkMachine (pc m) (defers m) (sigch m) true (listener_cancels m) (wg m)
    (listener m) (workers m) (disk m) (storage m) (log m) (crashed m).
Definition count_cancel (m : Machine) : Machine :=
  mkMachine (pc m) (defers m) (sigch m) (ctx_done m) (S (listener_cancels m)) (wg m)
    (listener m) (workers m) (disk m) (storage m) (log m) (crashed m).
Definition set_wg (v : Z) (m : Machine) : Machine :=
  mkMachine (pc m) (defers m) (sigch m) (ctx_done m) (listener_cancels m) v
    (listener m) (workers m) (disk m) (storage m) (log m) (crashed m).
Definition set_listener (v : Listener) (m : Machine) : Machine :=
  mkMachine (pc m) (defers m) (sigch m) (ctx_done m) (listener_cancels m) (wg m)
    v (workers m) (disk m) (storage m) (log m) (crashed m).
Definition set_workers (v : list Worker) (m : Machine) : Machine :=
  mkMachine (pc m) (defers m) (sigch m) (ctx_done m) (listener_cancels m) (wg m)
    (listener m) v (disk m) (storage m) (log m) (crashed m).
Definition set_disk (v : gmap string string) (m : Machine) : Machine :=
  mkMachine (pc m) (defers m) (sigch m) (ctx_done m) (listener_cancels m) (wg m)
    (listener m) (workers m) v (storage m) (log m) (crashed m).
Definition set_storage (v : list TrialRecord) (m : Machine) : Machine :=
  mkMachine (pc m) (defers m) (sigch m) (ctx_done m) (listener_cancels m) (wg m)
    (listener m) (workers m) (disk m) v (log m) (crashed m).
Definition add_log (e : LogEntry) (m : Machine) : Machine :=
  mkMachine (pc m) (defers m) (sigch m) (ctx_done m) (listener_cancels m) (wg m)
    (listener m) (workers m) (disk m) (storage m) (log m ++ [e]) (crashed m).
Definition crash (msg : string) (m : Machine) : Machine :=
  mkMachine (pc m) (defers m) (sigch m) (ctx_done m) (listener_cancels m) (wg m)
    (listener m) (workers m) (disk m) (storage m) (log m) (Some msg).

(** [wg.Add(1)] and [wg.Done()]. *)
Definition wg_add (m : Machine) : Machine := set_wg (wg m + 1) m.
Definition wg_done (m : Machine) : Machine := set_wg (wg m - 1) m.

(** The trial handle of trial [number]. *)
Definition with_number (number : Z) (t : Trial) : Trial :=
  mkTrial (SuggestLogUniform t) (SuggestInt t) (number, None) (GetContext t)
    (SetUserAttr_error t).

Section Scheduler.

(** The objective function and the report of the variant at hand. *)
Variable objective : Env -> Trial -> World -> (float64 * option error) * World.
Variable report : list TrialRecord -> Reported.

(** [runtime.NumCPU()]. *)
Variable NumCPU : Z.

(** Whether [study.Optimize] returns at the first error of the objective
    (the "strict" policy of section 9) or goes on ("lenient"). *)
Variable fail_fast : bool.

(** [concurrency := runtime.NumCPU() - 1]. *)
Definition concurrency : Z := NumCPU - 1.

(** The process right after [signal.Notify], with its deferred calls. *)
Definition start (ds : list Deferred) (files0 : gmap string string)
    (trials0 : list TrialRecord) : Machine :=
  {| pc := MGoListener; defers := ds; sigch := {| buf := []; closed := false |};
     ctx_done := false; listener_cancels := 0; wg := 0; listener := LNotStarted;
     workers := []; disk := files0; storage := trials0; log := [];
     crashed := None |}.

(** The signal package relays a signal: [select { case c <- sig: default: }],
    a send that does not block, and panics on a closed channel. *)
Definition deliver (s : Signal) (m : Machine) : Machine :=
  if closed (sigch m) then crash "send on closed channel" m
  else if (length (buf (sigch m)) <? 1)%nat
       then set_sigch {| buf := buf (sigch m) ++ [s]; closed := false |} m
       else m.

(** The listener goroutine:
    [defer wg.Done(); sig, ok := <-sigch; if !ok { return }; cancel(); log]. *)
Definition listener_step (m : Machine) : option Machine :=
  match listener m with
  | LNotStarted => None
  | LRecv =>
      match buf (sigch m) with
      | s :: rest =>
          Some (set_listener (LCancel s)
                  (set_sigch {| buf := rest; closed := closed (sigch m) |} m))
      | [] =>
          if closed (sigch m) then Some (wg_done (set_listener LDone m))
          else None
      end
  | LCancel s => Some (set_listener (LLog s) (count_cancel (set_ctx_done m)))
  | LLog s => Some (wg_done (set_listener LDone (add_log (LogSignal s) m)))
  | LDone => None
  end.

(** A worker goroutine outside an evaluation (part_000, lines 133-139):
    [defer wg.Done(); err := study.Optimize(objective, 1000 / concurrency);
    if err != nil { log }].  The division is evaluated when the goroutine
    runs; inside [study.Optimize] the worker moves as
    [goptuna.Optimize_returns] says. *)
Definition worker_step (i : nat) (m : Machine) : option Machine :=
  match workers m !! i with
  | Some WStart =>
      if concurrency =? 0 then Some (crash "integer divide by zero" m)
      else Some (set_workers (<[i := WOptimize (1000 ÷ concurrency) 0]> (workers m)) m)
  | Some (WOptimize evaluateMax evaluateCnt) =>
      match goptuna.Optimize_returns evaluateMax evaluateCnt (ctx_done m) with
      | Some err =>
          Some (set_workers (<[i := WReturned evaluateMax evaluateCnt err]> (workers m)) m)
      | None => None
      end
  | Some (WReturned evaluateMax evaluateCnt err) =>
      let m := match err with
               | Some e => add_log (LogOptimizeError e) m
               | None => m
               end in
      Some (wg_done (set_workers (<[i := WDone evaluateMax evaluateCnt err]> (workers m)) m))
  | Some (WDone _ _ _) => None
  | None => None
  end.

(** A worker inside [study.Optimize] evaluates one trial: the trial gets the
    next number, [objective] is called on it, the record of the trial goes to
    the storage, and the loop goes on or returns as [goptuna.stops_on]
    says. *)
Definition trial_step (i : nat) (inp : TrialInput) (m : Machine) : option Machine :=
  match workers m !! i with
  | Some (WOptimize evaluateMax evaluateCnt) =>
      match goptuna.Optimize_returns evaluateMax evaluateCnt (ctx_done m) with
      | None =>
          let number := Z.of_nat (length (storage m)) in
          let trial := with_number number (ti_trial inp) in
          let '((v, err), w) :=
            objective (ti_env inp) trial {| files := disk m; attrs := ∅; events := [] |} in
          let record := goptuna.record_trial number v err (attrs w) (ti_params inp) in
          let next :=
            match goptuna.stops_on fail_fast err with
            | Some e => WReturned evaluateMax (evaluateCnt + 1) (Some e)
            | None => WOptimize evaluateMax (evaluateCnt + 1)
            end in
          Some (set_workers (<[i := next]> (workers m))
                  (set_storage (storage m ++ [record]) (set_disk (files w) m)))
      | Some _ => None
      end
  | _ => None
  end.

(** One deferred call. *)
Definition run_deferred (d : Deferred) (m : Machine) : Machine :=
  match d with
  | DCloseSigch =>
      if closed (sigch m) then crash "close of closed channel" m
      else set_sigch {| buf := buf (sigch m); closed := true |} m
  | DCancel => set_ctx_done m
  | DDbClose => m
  | DLoggerSync => m
  end.

(** The main goroutine, from [var wg sync.WaitGroup] to its return. *)
Definition main_step (m : Machine) : option Machine :=
  match pc m with
  | MGoListener => Some (set_pc (MLoop 0) (set_listener LRecv (wg_add m)))
  | MLoop i =>
      if i <? concurrency
      then Some (set_pc (MLoop (i + 1)) (set_workers (workers m ++ [WStart]) (wg_add m)))
      else Some (set_pc MWait m)
  | MWait => if wg m =? 0 then Some (set_pc MReport m) else None
  | MReport =>
      match report (storage m) with
      | Printed e => Some (set_pc (MReturn None) (add_log e m))
      | Panicked msg => Some (set_pc (MReturn (Some msg)) m)
      | Fatal msg => Some (set_pc MExited m)
      end
  | MReturn panicking =>
      match defers m with
      | d :: ds => Some (set_defers ds (run_deferred d m))
      | [] =>
          match panicking with
          | Some msg => Some (set_pc MExited (crash msg m))
          | None => Some (set_pc MExited m)
          end
      end
  | MExited => None
  end.

(** Whether the process is still there. *)
Definition alive (m : Machine) : bool :=
  match crashed m, pc m with
  | None, MExited => false
  | None, _ => true
  | Some _, _ => false
  end.

(** One step; [None] when the goroutine asked to move cannot (it is
    blocked, or the process is gone). *)
Definition step (a : Action) (m : Machine) : option Machine :=
  if alive m then
    match a with
    | ASignal s => Some (deliver s m)
    | AListener => listener_step m
    | AWorker i => worker_step i m
    | ATrial i inp => trial_step i inp m
    | AMain => main_step m
    end
  else None.

(** A whole schedule. *)
Fixpoint run (acts : list Action) (m : Machine) : option Machine :=
  match acts with
  | [] => Some m
  | a :: rest =>
      match step a m with
      | Some m' => run rest m'
      | None => None
      end
  end.

End Scheduler.

(** [if err != nil { return r }] and, otherwise, the rest of the function. *)
Notation "'if_err' err 'as' e 'return' r 'else' k" :=
  (match err with Some e => r | None => k end)
  (at level 10, err at level 9, e name, r at level 100, k at level 200,
   only parsing).

(** * src/unnamed/part_000 *)

Module Part000.

(** [objective], lines 25-85. *)
Definition objective (env : Env) (trial : Trial) (w : World)
  : (float64 * option error) * World :=
  let '(lmd, err) := SuggestLogUniform trial "lambda" f64_1e_6 f64_1 in
  if_err err as e return ((f64_m1, Some e), w) else
  let '(eta, err) := SuggestLogUniform trial "eta" f64_1e_6 f64_1 in
  if_err err as e return ((f64_m1, Some e), w) else
  let '(latent, err) := SuggestInt trial "latent" 1 16 in
  if_err err as e return ((f64_m1, Some e), w) else
  let '(number, err) := Number trial in
  if_err err as e return ((f64_m1, Some e), w) else
  let jsonMetaPath := "./data/optuna/ffm-meta-" ++ strconv.FormatInt number ++ ".json" in
  let ctx := GetContext trial in
  let '((stdout, stderr, _), w) :=
    Run env (Some ctx) "./ffm-train"
      [ "-p"; "./data/valid2.txt";
        "--auto-stop"; "--auto-stop-threshold"; "3";
        "-l"; strconv.FormatFloat_f lmd;
        "-r"; strconv.FormatFloat_f eta;
        "-k"; strconv.FormatInt latent;
        "-t"; "500";
        "--json-meta"; jsonMetaPath;
        "./data/train2.txt" ] w in
  let result := json.zero in
  let '((jsonStr, err), w) := ReadFile jsonMetaPath w in
  if_err err as e return ((f64_m1, Some ("failed to read json: " ++ e)), w) else
  let '(result, err) := json.Unmarshal jsonStr result in
  if_err err as e return ((f64_m1, Some ("failed to read json: " ++ e)), w) else
  if (json.BestIteration result =? 0) && float64_eq (json.BestVALoss result) f64_0
  then ((f64_m1, Some "failed to open json meta"), w)
  else
    let '(_, w) := SetUserAttr trial "best_iteration"
                     (strconv.FormatInt (json.BestIteration result)) w in
    let '(_, w) := SetUserAttr trial "stdout" stdout w in
    let '(_, w) := SetUserAttr trial "stderr" stderr w in
    ((json.BestVALoss result, None), w).

(** The deferred calls of [main] when it reaches line 117, the last
    deferred first: [close(sigch)], [cancel()], [db.Close()]. *)
Definition deferred : list Deferred := [DCloseSigch; DCancel; DDbClose].

(** The end of [main], lines 143-147: both errors are dropped, and each
    parameter is asserted to be a float64. *)
Definition report (trials : list TrialRecord) : Reported :=
  let '(v, _) := goptuna.GetBestValue trials in
  let '(params, _) := goptuna.GetBestParams trials in
  match assert_float64 (params !! "lambda") with
  | None => Panicked "interface conversion: interface {} is not float64"
  | Some lambda =>
      match assert_float64 (params !! "eta") with
      | None => Panicked "interface conversion: interface {} is not float64"
      | Some eta =>
          match assert_float64 (params !! "latent") with
          | None => Panicked "interface conversion: interface {} is not float64"
          | Some latent => Printed (LogBest v lambda eta latent)
          end
      end
  end.

(** [main] from line 117 on, on a machine with [NumCPU] processors. *)
Definition start := start deferred.
Definition step := step objective report.
Definition run := run objective report.

(** [main] from line 117 on, under a schedule: the state it reaches, or
    [None] when the schedule asks a goroutine to move that cannot. *)
Definition main (NumCPU : Z) (fail_fast : bool) (files0 : gmap string string)
    (trials0 : list TrialRecord) (acts : list Action) : option Machine :=
  run NumCPU fail_fast acts (start files0 trials0).

End Part000.

(** * src/main.go, first document (lines 1-133) *)

Module Main1.

(** [getMetaPath], lines 25-27. *)
Definition getMetaPath (trialNumber : Z) : string :=
  "./data/optuna/ffm-meta-" ++ strconv.FormatInt trialNumber ++ ".json".

(** [objective], lines 29-83. *)
Definition objective (env : Env) (trial : Trial) (w : World)
  : (float64 * option error) * World :=
  let '(lmd, err) := SuggestLogUniform trial "lambda" f64_1e_6 f64_1 in
  if_err err as e return ((f64_m1, Some e), w) else
  let '(eta, err) := SuggestLogUniform trial "eta" f64_1e_6 f64_1 in
  if_err err as e return ((f64_m1, Some e), w) else
  let '(number, err) := Number trial in
  if_err err as e return ((f64_m1, Some e), w) else
  let jsonMetaPath := getMetaPath number in
  let '((stdout, stderr, _), w) :=
    Run env None "./ffm-train"
      [ "-p"; "./data/valid2.txt";
        "--auto-stop"; "--auto-stop-threshold"; "3";
        "-l"; strconv.FormatFloat_f lmd;
        "-r"; strconv.FormatFloat_f eta;
        "-k"; "4";
        "-t"; "500";
        "--json-meta"; jsonMetaPath;
        "./data/train2.txt" ] w in
  let result := json.zero in
  let '((jsonStr, err), w) := ReadFile jsonMetaPath w in
  if_err err as e return ((f64_m1, Some ("failed to read json: " ++ e)), w) else
  let '(result, err) := json.Unmarshal jsonStr result in
  if_err err as e return ((f64_m1, Some ("failed to read json: " ++ e)), w) else
  if (json.BestIteration result =? 0) && float64_eq (json.BestVALoss result) f64_0
  then ((f64_m1, Some "failed to open json meta"), w)
  else
    let '(_, w) := SetUserAttr trial "best_iteration"
                     (strconv.FormatInt (json.BestIteration result)) w in
    let '(_, w) := SetUserAttr trial "stdout" stdout w in
    let '(_, w) := SetUserAttr trial "stderr" stderr w in
    ((json.BestVALoss result, None), w).

(** The end of [main], lines 121-132. *)
Definition report (trials : list TrialRecord) : Reported :=
  let '(v, err) := goptuna.GetBestValue trials in
  if_err err as e return Fatal "failed to get best value" else
  let '(params, err) := goptuna.GetBestParams trials in
  if_err err as e return Fatal "failed to get best params" else
  Printed (LogResult v params).

End Main1.

(** * src/main.go, second document (lines 134-269) *)

Module Main2.

(** [getMetaPath], lines 158-160. *)
Definition getMetaPath (trialNumber : Z) : string :=
  "./data/optuna/ffm-meta-" ++ strconv.FormatInt trialNumber ++ ".json".

(** [objective], lines 162-220. *)
Definition objective (env : Env) (trial : Trial) (w : World)
  : (float64 * option error) * World :=
  let '(lmd, err) := SuggestLogUniform trial "lambda" f64_1e_6 f64_1 in
  if_err err as e return ((f64_m1, Some e), w) else
  let '(eta, err) := SuggestLogUniform trial "eta" f64_1e_6 f64_1 in
  if_err err as e return ((f64_m1, Some e), w) else
  let '(number, err) := Number trial in
  if_err err as e return ((f64_m1, Some e), w) else
  let jsonMetaPath := getMetaPath number in
  let libffm := Getenv env "LIBFFM_CLI" in
  let libffm := if String.eqb libffm "" then "./ffm-train" else libffm in
  let '((out, _, err), w) :=
    Run env None libffm
      [ "-p"; "./data/valid2.txt";
        "--auto-stop"; "--auto-stop-threshold"; "3";
        "-l"; strconv.FormatFloat_f lmd;
        "-r"; strconv.FormatFloat_f eta;
        "-k"; "4";
        "-t"; "500";
        "--json-meta"; jsonMetaPath;
        "./data/train2.txt" ] w in
  if_err err as e return ((f64_m1, Some e), w) else
  let result := json.zero in
  let '((jsonStr, err), w) := ReadFile jsonMetaPath w in
  if_err err as e return ((f64_m1, Some e), w) else
  let '(result, err) := json.Unmarshal jsonStr result in
  if_err err as e return ((f64_m1, Some e), w) else
  if (json.BestIteration result =? 0) && float64_eq (json.BestVALoss result) f64_0
  then ((f64_m1, Some "failed to open json meta"), w)
  else
    let '(err, w) := SetUserAttr trial "best_iteration"
                       (strconv.FormatInt (json.BestIteration result)) w in
    if_err err as e return ((f64_m1, Some e), w) else
    ((json.BestVALoss result, None), w).

(** The end of [main], lines 257-268. *)
Definition report (trials : list TrialRecord) : Reported :=
  let '(v, err) := goptuna.GetBestValue trials in
  if_err err as e return Fatal "failed to get best value" else
  let '(params, err) := goptuna.GetBestParams trials in
  if_err err as e return Fatal "failed to get best params" else
  Printed (LogResult v params).

End Main2.

(** * src/main.go, third document (lines 270-425) *)

Module Main3.

(** [objective], lines 295-355: the text of [Part000.objective]. *)
Definition objective := Part000.objective.

(** The deferred calls of [main] when it reaches line 394, the last
    deferred first: [close(sigch)], [cancel()], [db.Close()],
    [logger.Sync()]. *)
Definition deferred : list Deferred := [DCloseSigch; DCancel; DDbClose; DLoggerSync].

(** The end of [main], lines 420-424: both errors are dropped. *)
Definition report (trials : list TrialRecord) : Reported :=
  let '(v, _) := goptuna.GetBestValue trials in
  let '(params, _) := goptuna.GetBestParams trials in
  Printed (LogResult v params).

(** [main] from line 394 on, on a machine with [NumCPU] processors. *)
Definition start := start deferred.
Definition step := step objective report.
Definition run := run objective report.

(** [main] from line 394 on, under a schedule: the state it reaches, or
    [None] when the schedule asks a goroutine to move that cannot. *)
Definition main (NumCPU : Z) (fail_fast : bool) (files0 : gmap string string)
    (trials0 : list TrialRecord) (acts : list Action) : option Machine :=
  run NumCPU fail_fast acts (start files0 trials0).

End Main3.

(** * Vocabulary of the properties *)

(** ** Records, events and outcomes of an evaluation *)

(** A float64 that Go's [== 0] accepts: one of the two zeros. *)
Definition is_zero (x : float64) : Prop := exists sg, x = S754_zero sg.

(** The record the sentinel test of [objective] rejects. *)
Definition all_zero (r : json.result) : Prop :=
  json.BestIteration r = 0 /\ is_zero (json.BestVALoss r).

(** The scratch file of a trial. *)
Definition scratch (number : Z) : string :=
  "./data/optuna/ffm-meta-" ++ strconv.FormatInt number ++ ".json".

Definition is_attr_event (e : Event) : Prop :=
  match e with
  | EvSetUserAttr _ _ _ => True
  | _ => False
  end.

(** An event that runs a process. *)
Definition is_run_event (e : Event) : Prop :=
  match e with
  | EvRun _ _ _ _ => True
  | _ => False
  end.

(** The ways [Part000.objective] ends, from a world without earlier events:
    before the run; at the read; at the decoding; at the sentinel; or with
    the decoded loss. *)
Inductive Outcome (trial : Trial) (fs ua : gmap string string)
  : (float64 * option error) * World -> Prop :=
| NotRun (e : error) :
    Outcome trial fs ua ((f64_m1, Some e), mkWorld fs ua [])
| ReadFailed (number : Z) (args : list string) (res : RunResult)
    (fs1 : gmap string string) (e : error) :
    Number trial = (number, None) ->
    fs1 !! scratch number = None ->
    Outcome trial fs ua
      ((f64_m1, Some e),
       mkWorld fs1 ua [EvRun (Some (GetContext trial)) "./ffm-train" args res;
                       EvReadFile (scratch number) false])
| DecodeFailed (number : Z) (args : list string) (res : RunResult)
    (fs1 : gmap string string) (data : string) (r : json.result) (e : error) :
    Number trial = (number, None) ->
    fs1 !! scratch number = Some data ->
    json.Unmarshal data json.zero = (r, Some e) ->
    Outcome trial fs ua
      ((f64_m1, Some ("failed to read json: " ++ e)),
       mkWorld fs1 ua [EvRun (Some (GetContext trial)) "./ffm-train" args res;
                       EvReadFile (scratch number) true])
| AllZero (number : Z) (args : list string) (res : RunResult)
    (fs1 : gmap string string) (data : string) (r : json.result) :
    Number trial = (number, None) ->
    fs1 !! scratch number = Some data ->
    json.Unmarshal data json.zero = (r, None) ->
    all_zero r ->
    Outcome trial fs ua
      ((f64_m1, Some "failed to open json meta"),
       mkWorld fs1 ua [EvRun (Some (GetContext trial)) "./ffm-train" args res;
                       EvReadFile (scratch number) true])
| Scored (number : Z) (args : list string) (res : RunResult)
    (fs1 : gmap string string) (data : string) (r : json.result)
    (ua' : gmap string string) (evs : list Event) :
    Number trial = (number, None) ->
    fs1 !! scratch number = Some data ->
    json.Unmarshal data json.zero = (r, None) ->
    ~ all_zero r ->
    Forall is_attr_event evs ->
    (SetUserAttr_error trial "best_iteration" (strconv.FormatInt (json.BestIteration r)) = None ->
     ua' !! "best_iteration" = Some (strconv.FormatInt (json.BestIteration r))) ->
    Outcome trial fs ua
      ((json.BestVALoss r, None),
       mkWorld fs1 ua' (EvRun (Some (GetContext trial)) "./ffm-train" args res
                          :: EvReadFile (scratch number) true :: evs)).

(** ** Example inputs *)

(** The argument that follows [--json-meta]. *)
Fixpoint meta_path (args : list string) : string :=
  match args with
  | flag :: rest =>
      if String.eqb flag "--json-meta" then default "" (head rest) else meta_path rest
  | [] => ""
  end.

(** An evaluator that ends with [res] and leaves [content] in the file
    [--json-meta] names (nothing when [content] is [None]). *)
Definition evaluator (res : RunResult) (content : option string) : Env :=
  {| environ := ∅;
     exec := fun _ args =>
       {| p_result := res;
          p_files := fun fs => match content with
                               | Some data => <[meta_path args := data]> fs
                               | None => fs
                               end;
          p_stdout := "iter   tr_logloss   va_logloss";
          p_stderr := "" |} |}.

(** Trial [number] of a study whose sampler proposes [lambda], [eta] and
    [latent], and whose storage accepts every attribute. *)
Definition example_trial (number : Z) : Trial :=
  {| SuggestLogUniform := fun name _ _ =>
       (if String.eqb name "lambda" then float64_of_decimal false 2 (-5)
        else float64_of_decimal false 1 (-1), None);
     SuggestInt := fun _ _ _ => (4, None);
     Number := (number, None);
     GetContext := StudyContext;
     SetUserAttr_error := fun _ _ => None |}.

Definition empty_world : World := mkWorld ∅ ∅ [].

(** The text [{"k1": v1, "k2": v2}] of a scratch file. *)
Definition quote : string := String (chr 34) "".
Definition record_text (k1 v1 k2 v2 : string) : string :=
  "{" ++ quote ++ k1 ++ quote ++ ": " ++ v1 ++ ", " ++ quote ++ k2 ++ quote ++ ": " ++ v2 ++ "}".

(** ** Workers, schedules and invariants *)

Fixpoint total (f : Worker -> Z) (ws : list Worker) : Z :=
  match ws with
  | [] => 0
  | w :: rest => f w + total f rest
  end.

(** A worker that has not returned yet holds one unit of the wait group. *)
Definition active (w : Worker) : Z :=
  match w with
  | WDone _ _ _ => 0
  | _ => 1
  end.

(** The trials a worker has evaluated, and the count it was given. *)
Definition attempts (w : Worker) : Z :=
  match w with
  | WStart => 0
  | WOptimize _ cnt | WReturned _ cnt _ | WDone _ cnt _ => cnt
  end.

Definition quota (w : Worker) : option Z :=
  match w with
  | WStart => None
  | WOptimize mx _ | WReturned mx _ _ | WDone mx _ _ => Some mx
  end.

(** An action other than the delivery of a signal. *)
Definition quiet (a : Action) : bool :=
  match a with
  | ASignal _ => false
  | _ => true
  end.

(** Main has not got past [wg.Wait()]. *)
Definition waiting (m : Machine) : bool :=
  match pc m with
  | MGoListener | MLoop _ | MWait => true
  | _ => false
  end.

Definition finished (w : Worker) : bool :=
  match w with
  | WDone _ _ _ => true
  | _ => false
  end.

Definition at_wait (m : Machine) : bool :=
  match pc m with
  | MWait => true
  | _ => false
  end.

(** Main has left the loop that starts the workers. *)
Definition spawned (m : Machine) : bool :=
  match pc m with
  | MGoListener | MLoop _ => false
  | _ => true
  end.

Definition returned_nil (w : Worker) : bool :=
  match w with
  | WDone _ _ None => true
  | _ => false
  end.

Definition quota_is (sh : Z) (w : Worker) : bool :=
  match quota w with
  | Some mx => mx =? sh
  | None => false
  end.

(** No signal has come: the channel is empty and open, nobody has
    cancelled, the listener (once started) sits at its receive holding one
    unit of the wait group, and every worker that has not returned holds
    another. *)
Definition unsignalled (NumCPU : Z) (m : Machine) : Prop :=
  buf (sigch m) = [] /\ closed (sigch m) = false /\ crashed m = None /\
  (workers m = [] \/ 0 < concurrency NumCPU) /\
  (forall i, pc m = MLoop i -> 0 <= i) /\
  match pc m with
  | MGoListener => listener m = LNotStarted /\ workers m = [] /\ wg m = 0
  | MLoop _ | MWait => listener m = LRecv /\ wg m = 1 + total active (workers m)
  | _ => False
  end.

(** A worker whose count is [sh], has evaluated no more than that, and has
    evaluated exactly that many when it returned nil. *)
Definition well_counted (sh : Z) (w : Worker) : Prop :=
  match w with
  | WStart => True
  | WOptimize mx cnt => mx = sh /\ 0 <= cnt <= mx
  | WReturned mx cnt err | WDone mx cnt err =>
      mx = sh /\ 0 <= cnt <= mx /\ (err = None -> cnt = mx)
  end.

(** Every trial in the storage beyond the [n0] it started with was counted
    by the worker that evaluated it, and the workers are those the loop has
    started so far. *)
Definition counted (NumCPU : Z) (n0 : nat) (m : Machine) : Prop :=
  Forall (well_counted (1000 ÷ concurrency NumCPU)) (workers m) /\
  Z.of_nat (length (storage m)) = Z.of_nat n0 + total attempts (workers m) /\
  (workers m = [] \/ 0 < concurrency NumCPU) /\
  match pc m with
  | MGoListener => workers m = []
  | MLoop i => 0 <= i <= Z.max 0 (concurrency NumCPU) /\ Z.of_nat (length (workers m)) = i
  | _ => Z.of_nat (length (workers m)) = Z.max 0 (concurrency NumCPU)
  end.

(** The listener has called [cancel()] at most once, and not at all before
    it got a signal. *)
Definition cancels_once (m : Machine) : Prop :=
  (pc m = MGoListener -> listener m = LNotStarted) /\
  match listener m with
  | LNotStarted | LRecv | LCancel _ => listener_cancels m = 0%nat
  | LLog _ | LDone => (listener_cancels m <= 1)%nat
  end.

(** ** Example runs *)

(** A trial whose evaluator stops early (exit status 1) after writing a
    record. *)
Definition good_input : TrialInput :=
  {| ti_env := evaluator (Exited 1) (Some (record_text "best_iteration" "42" "best_va_loss" "0.1834"));
     ti_trial := example_trial 0;
     ti_params := {[ "lambda" := IFloat64 (float64_of_decimal false 2 (-5));
                     "eta" := IFloat64 (float64_of_decimal false 1 (-1));
                     "latent" := IInt 4 ]} |}.

(** Worker [i] from its start to its return, evaluating [n] trials. *)
Definition worker_schedule (i : nat) (n : nat) : list Action :=
  AWorker i :: repeat (ATrial i good_input) n ++ [AWorker i; AWorker i].

(** Two processors: main starts the listener and one worker and waits; the
    worker evaluates its 1000 trials and returns. *)
Definition schedule_2cpu : list Action :=
  [AMain; AMain; AMain] ++ worker_schedule 0 1000.

(** Four processors: main starts the listener and three workers and waits;
    each worker evaluates its 333 trials and returns. *)
Definition schedule_4cpu : list Action :=
  [AMain; AMain; AMain; AMain; AMain]
    ++ worker_schedule 0 333 ++ worker_schedule 1 333 ++ worker_schedule 2 333.

(** A trial of an earlier run, kept in the storage, whose parameters are all
    float64 values. *)
Definition earlier_trial : TrialRecord :=
  {| t_number := 0; t_state := Complete;
     t_value := Some (float64_of_decimal false 25 (-2));
     t_attrs := ∅;
     t_params := {[ "lambda" := IFloat64 (float64_of_decimal false 2 (-5));
                    "eta" := IFloat64 (float64_of_decimal false 1 (-1));
                    "latent" := IFloat64 (float64_of_decimal false 4 0) ]} |}.

(** Two processors: a first SIGINT arrives while the worker is about to
    start, the listener cancels, the worker returns, main reports and starts
    its deferred calls with [close(sigch)]; then a second SIGINT arrives. *)
Definition schedule_two_signals : list Action :=
  [AMain; AMain; AMain; ASignal SIGINT; AListener; AListener; AListener;
   AWorker 0; AWorker 0; AWorker 0; AMain; AMain; AMain; ASignal SIGINT].

(** * The scanner does not run out of fuel *)

Section ScannerFuel.

Lemma skip_space_length (s : string) :
  (String.length (json.skip_space s) <= String.length s)%nat.
Proof. induction s as [|c s IH]; simpl; [lia|]. destruct (json.is_space c); simpl; lia. Qed.

Lemma strip_prefix_length (p s r : string) :
  json.strip_prefix p s = Some r -> (String.length r <= String.length s)%nat.
Proof.
  revert s. induction p as [|a p IH]; intros s H.
  - destruct s; simpl in H; simplify_eq; lia.
  - destruct s as [|b s]; simpl in H; [discriminate|].
    destruct (Ascii.eqb a b); [|discriminate]. apply IH in H. simpl. lia.
Qed.

Lemma eat_length (c : ascii) (s r : string) :
  json.eat c s = Some r -> String.length s = S (String.length r).
Proof.
  destruct s as [|a s]; simpl; [discriminate|].
  destruct (Ascii.eqb a c); intros; simplify_eq. reflexivity.
Qed.

Lemma span_digits_length (s d r : string) :
  json.span_digits s = (d, r) -> String.length s = (String.length d + String.length r)%nat.
Proof.
  revert d r. induction s as [|c s IH]; intros d r H; simpl in *; simplify_eq; [reflexivity|].
  destruct (is_digit c); simplify_eq; [|reflexivity].
  destruct (json.span_digits s) as [d' r'] eqn:Hs. simplify_eq.
  rewrite (IH d' r eq_refl). reflexivity.
Qed.

Lemma scan_fraction_length (s fp r : string) :
  json.scan_fraction s = Some (fp, r) -> (String.length r <= String.length s)%nat.
Proof.
  unfold json.scan_fraction. destruct (json.eat "." s) as [s'|] eqn:Hdot.
  - apply eat_length in Hdot.
    destruct (json.span_digits s') as [d rest] eqn:Hd. apply span_digits_length in Hd.
    destruct d; intros; simplify_eq. lia.
  - intros; simplify_eq. lia.
Qed.

Lemma scan_exponent_length (s ex r : string) :
  json.scan_exponent s = Some (ex, r) -> (String.length r <= String.length s)%nat.
Proof.
  unfold json.scan_exponent. destruct s as [|c s]; [intros; simplify_eq; lia|].
  destruct (Ascii.eqb c "e" || Ascii.eqb c "E"); [|intros; simplify_eq; lia].
  destruct (json.eat "-" s) as [r1|] eqn:Hm; [|destruct (json.eat "+" s) as [r1|] eqn:Hp].
  - apply eat_length in Hm.
    destruct (json.span_digits r1) as [ep rest] eqn:Hep. apply span_digits_length in Hep.
    destruct ep; intros; simplify_eq; simpl in *; lia.
  - apply eat_length in Hp.
    destruct (json.span_digits r1) as [ep rest] eqn:Hep. apply span_digits_length in Hep.
    destruct ep; intros; simplify_eq; simpl in *; lia.
  - destruct (json.span_digits s) as [ep rest] eqn:Hep. apply span_digits_length in Hep.
    destruct ep; intros; simplify_eq; simpl in *; lia.
Qed.

Lemma scan_number_length (s lit r : string) :
  json.scan_number s = Some (lit, r) -> (String.length r < String.length s)%nat.
Proof.
  unfold json.scan_number. intros H.
  assert (Hsign : exists sign s1, (String.length s1 <= String.length s)%nat /\
            match json.eat "-" s with Some r => ("-", r) | None => ("", s) end = (sign, s1)).
  { destruct (json.eat "-" s) as [s1|] eqn:Hs; eexists _, _; (split; [|reflexivity]); [|lia].
    apply eat_length in Hs. lia. }
  destruct Hsign as (sign & s1 & Hlen & Heq). rewrite Heq in H.
  destruct (json.span_digits s1) as [ip s2] eqn:Hip. apply span_digits_length in Hip.
  destruct (json.int_part_ok ip) eqn:Hok; simpl in H; [|discriminate].
  assert (0 < String.length ip)%nat by (destruct ip; [discriminate|simpl; lia]).
  destruct (json.scan_fraction s2) as [[fp s3]|] eqn:Hf; [|discriminate].
  apply scan_fraction_length in Hf.
  destruct (json.scan_exponent s3) as [[ex s4]|] eqn:He; [|discriminate].
  apply scan_exponent_length in He. simplify_eq. lia.
Qed.

Lemma hex4_length (s r : string) (v : Z) :
  json.hex4 s = Some (v, r) -> String.length s = (4 + String.length r)%nat.
Proof.
  unfold json.hex4. destruct s as [|a [|b [|c [|d s]]]]; try discriminate.
  destruct (hex_val a), (hex_val b), (hex_val c), (hex_val d); intros; simplify_eq.
  reflexivity.
Qed.

Lemma unescape_u_length (s bytes r : string) :
  json.unescape_u s = Some (bytes, r) -> (String.length r < String.length s)%nat.
Proof.
  unfold json.unescape_u. destruct (json.hex4 s) as [[hi r0]|] eqn:Hh; [|discriminate].
  apply hex4_length in Hh.
  destruct (json.is_surrogate hi); [|intros; simplify_eq; lia].
  destruct (json.strip_prefix "\u" r0) as [r1|] eqn:Hp; [|intros; simplify_eq; lia].
  apply strip_prefix_length in Hp.
  destruct (json.hex4 r1) as [[lo r2]|] eqn:Hl; [|intros; simplify_eq; lia].
  apply hex4_length in Hl.
  destruct ((hi <? 56320) && (56320 <=? lo) && (lo <? 57344)); intros; simplify_eq; lia.
Qed.

Lemma scan_string_length (fuel : nat) (s body r : string) :
  json.scan_string fuel s = Some (body, r) -> (String.length r < String.length s)%nat.
Proof.
  revert s body r. induction fuel as [|fuel IH]; intros s body r H; simpl in H; [discriminate|].
  destruct s as [|c s]; [discriminate|]. simpl.
  destruct (code c =? 34); [simplify_eq; lia|].
  destruct (code c <? 32); [discriminate|].
  destruct (code c =? 92).
  - destruct s as [|e s']; [discriminate|].
    destruct (code e =? 117).
    + destruct (json.unescape_u s') as [[bytes r'']|] eqn:Hu; [|discriminate].
      apply unescape_u_length in Hu.
      destruct (json.scan_string fuel r'') as [[b rest]|] eqn:Hs; [|discriminate].
      apply IH in Hs. simplify_eq. simpl. lia.
    + destruct (json.simple_escape e); [|discriminate].
      destruct (json.scan_string fuel s') as [[b rest]|] eqn:Hs; [|discriminate].
      apply IH in Hs. simplify_eq. simpl. lia.
  - destruct (json.scan_string fuel s) as [[b rest]|] eqn:Hs; [|discriminate].
    apply IH in Hs. simplify_eq. lia.
Qed.

(** Any fuel above the length of the text gives [scan_string] the same
    answer. *)
Lemma scan_string_fuel (f f' : nat) (s : string) :
  (String.length s < f)%nat -> (String.length s < f')%nat ->
  json.scan_string f s = json.scan_string f' s.
Proof.
  revert f' s. induction f as [|f IH]; intros f' s Hf Hf'; [lia|].
  destruct f' as [|f']; [lia|]. simpl.
  destruct s as [|c s]; [reflexivity|]. simpl in Hf, Hf'.
  destruct (code c =? 34); [reflexivity|].
  destruct (code c <? 32); [reflexivity|].
  destruct (code c =? 92).
  - destruct s as [|e s']; [reflexivity|]. simpl in Hf, Hf'.
    destruct (code e =? 117).
    + destruct (json.unescape_u s') as [[bytes r'']|] eqn:Hu; [|reflexivity].
      apply unescape_u_length in Hu.
      rewrite (IH f' r'') by lia. reflexivity.
    + destruct (json.simple_escape e); [|reflexivity].
      rewrite (IH f' s') by lia. reflexivity.
  - rewrite (IH f' s) by lia. reflexivity.
Qed.

#[local] Arguments json.strip_prefix : simpl never.
#[local] Arguments json.skip_space : simpl never.
#[local] Arguments json.scan_string : simpl never.
#[local] Arguments json.scan_number : simpl never.
#[local] Arguments json.eat : simpl never.

(** What the three scanners leave is shorter than what they were given. *)
Lemma scan_length (fuel : nat) :
  (forall s v r, json.scan_value fuel s = Some (v, r) ->
                 (String.length r < String.length s)%nat) /\
  (forall s acc v r, json.scan_elements fuel s acc = Some (v, r) ->
                     (String.length r < String.length s)%nat) /\
  (forall s acc v r, json.scan_members fuel s acc = Some (v, r) ->
                     (String.length r < String.length s)%nat).
Proof.
  induction fuel as [|fuel (IHv & IHe & IHm)]; [repeat split; intros; discriminate|].
  split; [|split].
  - intros s v r H. simpl in H.
    pose proof (skip_space_length s) as Hsk.
    destruct (json.skip_space s) as [|c t]; [discriminate|]. simpl in Hsk.
    repeat match type of H with
           | (if ?b then _ else _) = _ => destruct b
           end.
    + destruct (json.strip_prefix "ull" t) as [r'|] eqn:Hp; [|discriminate].
      apply strip_prefix_length in Hp. simplify_eq. lia.
    + destruct (json.strip_prefix "rue" t) as [r'|] eqn:Hp; [|discriminate].
      apply strip_prefix_length in Hp. simplify_eq. lia.
    + destruct (json.strip_prefix "alse" t) as [r'|] eqn:Hp; [|discriminate].
      apply strip_prefix_length in Hp. simplify_eq. lia.
    + destruct (json.scan_string _ t) as [[str r']|] eqn:Hs; [|discriminate].
      apply scan_string_length in Hs. simplify_eq. lia.
    + pose proof (skip_space_length t) as Hsk'.
      destruct (json.eat "]" (json.skip_space t)) as [r'|] eqn:He.
      * apply eat_length in He. simplify_eq. lia.
      * apply IHe in H. lia.
    + pose proof (skip_space_length t) as Hsk'.
      destruct (json.eat "}" (json.skip_space t)) as [r'|] eqn:He.
      * apply eat_length in He. simplify_eq. lia.
      * apply IHm in H. lia.
    + destruct (json.scan_number (String c t)) as [[lit r']|] eqn:Hn; [|discriminate].
      apply scan_number_length in Hn. simplify_eq. simpl in Hn. lia.
  - intros s acc v r H. simpl in H.
    destruct (json.scan_value fuel s) as [[v0 r0]|] eqn:Hv; [|discriminate].
    apply IHv in Hv. pose proof (skip_space_length r0) as Hsk.
    destruct (json.eat "," (json.skip_space r0)) as [r'|] eqn:Hc.
    + apply eat_length in Hc. apply IHe in H. lia.
    + destruct (json.eat "]" (json.skip_space r0)) as [r'|] eqn:Hb; [|discriminate].
      apply eat_length in Hb. simplify_eq. lia.
  - intros s acc v r H. simpl in H.
    pose proof (skip_space_length s) as Hsk.
    destruct (json.skip_space s) as [|c t]; [discriminate|]. simpl in Hsk.
    destruct (code c =? 34); [|discriminate].
    destruct (json.scan_string _ t) as [[key r1]|] eqn:Hs; [|discriminate].
    apply scan_string_length in Hs. pose proof (skip_space_length r1) as Hsk1.
    destruct (json.eat ":" (json.skip_space r1)) as [r2|] eqn:Hcol; [|discriminate].
    apply eat_length in Hcol.
    destruct (json.scan_value fuel r2) as [[v0 r3]|] eqn:Hv; [|discriminate].
    apply IHv in Hv. pose proof (skip_space_length r3) as Hsk3.
    destruct (json.eat "," (json.skip_space r3)) as [r4|] eqn:Hc.
    + apply eat_length in Hc. apply IHm in H. lia.
    + destruct (json.eat "}" (json.skip_space r3)) as [r4|] eqn:Hb; [|discriminate].
      apply eat_length in Hb. simplify_eq. lia.
Qed.

(** Any fuel above twice the length of the text gives the three scanners
    the same answer. *)
Lemma scan_fuel (f : nat) :
  (forall f' s, (2 * String.length s < f)%nat -> (2 * String.length s < f')%nat ->
                json.scan_value f s = json.scan_value f' s) /\
  (forall f' s acc, (2 * String.length s + 1 < f)%nat -> (2 * String.length s + 1 < f')%nat ->
                    json.scan_elements f s acc = json.scan_elements f' s acc) /\
  (forall f' s acc, (2 * String.length s + 1 < f)%nat -> (2 * String.length s + 1 < f')%nat ->
                    json.scan_members f s acc = json.scan_members f' s acc).
Proof.
  induction f as [|f (IHv & IHe & IHm)]; [repeat split; intros; lia|].
  split; [|split].
  - intros [|f'] s Hf Hf'; [lia|]. simpl.
    pose proof (skip_space_length s) as Hsk.
    destruct (json.skip_space s) as [|c t]; [reflexivity|]. simpl in Hsk.
    repeat match goal with
           | |- (if ?b then _ else _) = _ => destruct b; try reflexivity
           end.
    + pose proof (skip_space_length t) as Hsk'.
      destruct (json.eat "]" (json.skip_space t)); [reflexivity|].
      apply IHe; lia.
    + pose proof (skip_space_length t) as Hsk'.
      destruct (json.eat "}" (json.skip_space t)); [reflexivity|].
      apply IHm; lia.
  - intros [|f'] s acc Hf Hf'; [lia|]. simpl.
    rewrite (IHv f' s) by lia.
    destruct (json.scan_value f' s) as [[v0 r0]|] eqn:Hv; [|reflexivity].
    apply (proj1 (scan_length f')) in Hv. pose proof (skip_space_length r0) as Hsk.
    destruct (json.eat "," (json.skip_space r0)) as [r'|] eqn:Hc; [|reflexivity].
    apply eat_length in Hc. apply IHe; lia.
  - intros [|f'] s acc Hf Hf'; [lia|]. simpl.
    pose proof (skip_space_length s) as Hsk.
    destruct (json.skip_space s) as [|c t]; [reflexivity|]. simpl in Hsk.
    destruct (code c =? 34); [|reflexivity].
    destruct (json.scan_string _ t) as [[key r1]|] eqn:Hs; [|reflexivity].
    apply scan_string_length in Hs. pose proof (skip_space_length r1) as Hsk1.
    destruct (json.eat ":" (json.skip_space r1)) as [r2|] eqn:Hcol; [|reflexivity].
    apply eat_length in Hcol.
    rewrite (IHv f' r2) by lia.
    destruct (json.scan_value f' r2) as [[v0 r3]|] eqn:Hv; [|reflexivity].
    apply (proj1 (scan_length f')) in Hv. pose proof (skip_space_length r3) as Hsk3.
    destruct (json.eat "," (json.skip_space r3)) as [r4|] eqn:Hc; [|reflexivity].
    apply eat_length in Hc. apply IHm; lia.
Qed.

(** The fuel [json.scan] gives is enough: no larger fuel changes what is
    scanned. *)
Lemma scan_value_fuel (fuel : nat) (data : string) :
  (2 * String.length data < fuel)%nat ->
  json.scan_value fuel data = json.scan_value (S (2 * String.length data)) data.
Proof. intros Hf. apply (proj1 (scan_fuel fuel)); lia. Qed.

End ScannerFuel.

(** * Properties of the objective function *)

Lemma float64_eq_zero (x : float64) : float64_eq x f64_0 = true <-> is_zero x.
Proof.
  unfold is_zero, float64_eq, f64_0. split.
  - destruct x as [sg|sg| |sg m e]; simpl; try discriminate.
    + intros _. by exists sg.
    + destruct sg; discriminate.
    + destruct sg; discriminate.
  - intros [sg ->]. reflexivity.
Qed.

Lemma sentinel_all_zero (r : json.result) :
  (json.BestIteration r =? 0) && float64_eq (json.BestVALoss r) f64_0 = true <-> all_zero r.
Proof.
  unfold all_zero. rewrite andb_true_iff, Z.eqb_eq, float64_eq_zero. tauto.
Qed.

Lemma sentinel_not_all_zero (r : json.result) :
  (json.BestIteration r =? 0) && float64_eq (json.BestVALoss r) f64_0 = false <-> ~ all_zero r.
Proof.
  rewrite <- sentinel_all_zero. destruct (_ && _); split; congruence.
Qed.

(** ** The primitives, as far as the proofs need them *)

(** A run touches neither the attributes nor the earlier events, and adds
    the one event of the run. *)
Lemma Run_world (env : Env) (ctx : option Context) (path : string) (args : list string)
    (w : World) :
  attrs (Run env ctx path args w).2 = attrs w /\
  events (Run env ctx path args w).2
    = (events w ++ [EvRun ctx path args (p_result (exec env path args))])%list.
Proof.
  unfold Run, emit. destruct (p_result (exec env path args)) as [[|?|?]| |?]; done.
Qed.

(** [cmd.Run] returns nil exactly when the process exited with status 0. *)
Lemma Run_error (env : Env) (ctx : option Context) (path : string) (args : list string)
    (w : World) :
  (Run env ctx path args w).1.2 = None <-> p_result (exec env path args) = Exited 0.
Proof.
  unfold Run. destruct (p_result (exec env path args)) as [[|?|?]| |?]; naive_solver.
Qed.

Lemma attr_events_only (evs : list Event) (e : Event) :
  Forall is_attr_event evs -> In e evs -> is_attr_event e.
Proof.
  intros Hall Hin. apply list_elem_of_In in Hin.
  eapply Forall_forall in Hall; [|exact Hin]. exact Hall.
Qed.

Lemma attr_events_no_read (evs : list Event) (path : string) (ok : bool) :
  Forall is_attr_event evs -> ~ In (EvReadFile path ok) evs.
Proof. intros Hall Hin. exact (attr_events_only _ _ Hall Hin). Qed.

(** ** Tactics for the paths of an evaluation *)

(** The calls of the sampler and the storage ahead of the run, one goal per
    outcome. *)
Ltac oracle_paths :=
  unfold Part000.objective, Main3.objective, Main1.objective, Main2.objective;
  repeat match goal with
         | |- context [SuggestLogUniform ?t ?n ?lo ?hi] =>
             destruct (SuggestLogUniform t n lo hi) as [? [?|]] eqn:?; simpl
         | |- context [SuggestInt ?t ?n ?lo ?hi] =>
             destruct (SuggestInt t n lo hi) as [? [?|]] eqn:?; simpl
         | |- context [Number ?t] =>
             destruct (Number t) as [? [?|]] eqn:?; simpl
         end.

(** The run: the world after it is named, with what [Run_world] and
    [Run_error] say. *)
Ltac run_paths :=
  match goal with
  | |- context [Run ?env ?c ?b ?a ?w] =>
      let Hat := fresh "Hattrs" in
      let Hev := fresh "Hevents" in
      let Herr := fresh "Hrun" in
      let w1 := fresh "w1" in
      destruct (Run_world env c b a w) as [Hat Hev];
      pose proof (Run_error env c b a w) as Herr;
      destruct (Run env c b a w) as [[[? ?] ?] w1];
      simpl in Hat, Hev, Herr; destruct w1; simpl in Hat, Hev; subst; simpl
  end.

Ltac read_paths :=
  unfold ReadFile, emit; simpl;
  match goal with
  | |- context [?fs !! ?p] =>
      match type of fs with
      | gmap string string =>
          let data := fresh "data" in
          let Hfile := fresh "Hfile" in
          destruct (fs !! p) as [data|] eqn:Hfile; simpl
      end
  end.

Ltac decode_paths :=
  match goal with
  | |- context [json.Unmarshal ?d json.zero] =>
      let r := fresh "r" in
      let e := fresh "e" in
      let Hdec := fresh "Hdec" in
      destruct (json.Unmarshal d json.zero) as [r [e|]] eqn:Hdec; simpl
  end.

Ltac sentinel_paths :=
  match goal with
  | |- context [(json.BestIteration ?r =? 0) && float64_eq (json.BestVALoss ?r) f64_0] =>
      let Hsent := fresh "Hsent" in
      destruct ((json.BestIteration r =? 0) && float64_eq (json.BestVALoss r) f64_0) eqn:Hsent;
      [apply sentinel_all_zero in Hsent | apply sentinel_not_all_zero in Hsent]; simpl
  end.

Ltac attr_paths :=
  unfold SetUserAttr, emit; simpl;
  repeat match goal with
         | |- context [SetUserAttr_error ?t ?k ?v] =>
             destruct (SetUserAttr_error t k v) eqn:?; simpl
         end.

(** The one [EvReadFile] of an evaluation, found in its list of events. *)
Ltac read_event :=
  repeat match goal with
         | H : In (EvReadFile _ _) ?evs, F : Forall is_attr_event ?evs |- _ =>
             destruct (attr_events_no_read _ _ _ F H)
         | H : In _ (_ :: _) |- _ => simpl in H
         | H : In _ [] |- _ => destruct H
         | H : _ \/ _ |- _ => destruct H
         | H : False |- _ => destruct H
         | H : EvRun _ _ _ _ = EvReadFile _ _ |- _ => discriminate H
         | H : EvSetUserAttr _ _ _ = EvReadFile _ _ |- _ => discriminate H
         | H : EvReadFile _ _ = EvReadFile _ _ |- _ => injection H as ? ?; subst
         end.

(** Two decodings of the same data are the same. *)
Ltac same_record :=
  match goal with
  | H1 : json.Unmarshal ?d json.zero = _, H2 : json.Unmarshal ?d json.zero = _ |- _ =>
      rewrite H1 in H2; simplify_eq
  end.

(** ** What an evaluation of [Part000.objective] comes to *)

Lemma objective_outcome (env : Env) (trial : Trial) (fs ua : gmap string string) :
  Outcome trial fs ua (Part000.objective env trial (mkWorld fs ua [])).
Proof.
  oracle_paths.
  1-4: by constructor.
  run_paths; read_paths; [decode_paths; [|sentinel_paths; [|attr_paths]]|].
  all: try (econstructor; by eauto).
  all: eapply Scored; eauto; [repeat constructor|]; intros; simplify_map_eq; done.
Qed.

(** When the sampler or the storage refuses one of the four calls ahead of
    the run, [Part000.objective] returns an error and does nothing else. *)
Lemma objective_oracle_failure (env : Env) (trial : Trial) (w : World) :
  (SuggestLogUniform trial "lambda" f64_1e_6 f64_1).2 <> None \/
  (SuggestLogUniform trial "eta" f64_1e_6 f64_1).2 <> None \/
  (SuggestInt trial "latent" 1 16).2 <> None \/
  (Number trial).2 <> None ->
  (Part000.objective env trial w).1.1 = f64_m1 /\
  (Part000.objective env trial w).1.2 <> None /\
  (Part000.objective env trial w).2 = w.
Proof.
  intros Hfail. oracle_paths; try done.
  simpl in Hfail. intuition congruence.
Qed.

(** ** The claims about [objective] *)

(** C10: on every path of [objective] that returns an error the score is -1;
    a refusal of the sampler or of the storage ahead of the run is such a
    path, and nothing is run or read on it; the error is nil exactly when the
    scratch file was read, decoded without error, and is not the all-zero
    record; and then the score is the decoded best loss. *)
Theorem C10_objective_error_paths (env : Env) (trial : Trial) (fs ua : gmap string string) :
  let out := Part000.objective env trial (mkWorld fs ua []) in
  let score := out.1.1 in
  let err := out.1.2 in
  let w' := out.2 in
  (err <> None -> score = f64_m1) /\
  ((SuggestLogUniform trial "lambda" f64_1e_6 f64_1).2 <> None \/
   (SuggestLogUniform trial "eta" f64_1e_6 f64_1).2 <> None \/
   (SuggestInt trial "latent" 1 16).2 <> None \/
   (Number trial).2 <> None ->
   err <> None /\ events w' = []) /\
  (err = None <->
     exists path data r,
       In (EvReadFile path true) (events w') /\
       files w' !! path = Some data /\
       json.Unmarshal data json.zero = (r, None) /\
       ~ all_zero r) /\
  (forall path data r,
      err = None ->
      In (EvReadFile path true) (events w') ->
      files w' !! path = Some data ->
      json.Unmarshal data json.zero = (r, None) ->
      score = json.BestVALoss r).
Proof.
  intros out score err w'. subst score err w'.
  assert (Hrefused :
            (SuggestLogUniform trial "lambda" f64_1e_6 f64_1).2 <> None \/
            (SuggestLogUniform trial "eta" f64_1e_6 f64_1).2 <> None \/
            (SuggestInt trial "latent" 1 16).2 <> None \/
            (Number trial).2 <> None ->
            out.1.2 <> None /\ events out.2 = []).
  { intros Hfail.
    destruct (objective_oracle_failure env trial (mkWorld fs ua []) Hfail) as (_ & Herr & Hw).
    fold out in Herr, Hw. rewrite Hw. split; [exact Herr|reflexivity]. }
  cut ((out.1.2 <> None -> out.1.1 = f64_m1) /\
       (out.1.2 = None <->
          exists path data r,
            In (EvReadFile path true) (events out.2) /\
            files out.2 !! path = Some data /\
            json.Unmarshal data json.zero = (r, None) /\
            ~ all_zero r) /\
       (forall path data r,
           out.1.2 = None ->
           In (EvReadFile path true) (events out.2) ->
           files out.2 !! path = Some data ->
           json.Unmarshal data json.zero = (r, None) ->
           out.1.1 = json.BestVALoss r)).
  { intros (H1 & H2 & H3). exact (conj H1 (conj Hrefused (conj H2 H3))). }
  clear Hrefused.
  pose proof (objective_outcome env trial fs ua) as Hout. fold out in Hout.
  destruct Hout; simpl.
  all: split; [done|].
  all: split; [split; [try done|]|].
  all: try (intros (path & data' & r' & Hin & Hf & Hd & Hnz)).
  all: try (intros path data' r' Herr Hin Hf Hd).
  all: try discriminate.
  all: try (intros _; eexists _, _, _; split; [right; left; reflexivity|]; done).
  all: read_event; simplify_eq; try done.
  all: try congruence.
  all: try (assert (r = r') by congruence; subst; done).
Qed.

(** C6: when the record decoded from the scratch file has best_iteration 0
    and a best loss equal to 0, [objective] returns -1 with the error "failed
    to open json meta" and sets no attribute; when one of the two is not
    zero, the sentinel does not fire and the decoded loss is returned with a
    nil error. *)
Theorem C6_all_zero_sentinel (env : Env) (trial : Trial) (fs ua : gmap string string)
    (path data : string) (r : json.result) :
  let out := Part000.objective env trial (mkWorld fs ua []) in
  In (EvReadFile path true) (events out.2) ->
  files out.2 !! path = Some data ->
  json.Unmarshal data json.zero = (r, None) ->
  (all_zero r ->
     out.1 = (f64_m1, Some "failed to open json meta") /\ attrs out.2 = ua) /\
  (~ all_zero r -> out.1 = (json.BestVALoss r, None)).
Proof.
  intros out.
  pose proof (objective_outcome env trial fs ua) as Hout. fold out in Hout.
  destruct Hout; simpl; intros Hin Hf Hd; read_event; simplify_eq; same_record.
  - split; [done|]. intros Hnz. contradiction.
  - split; [intros Hz; contradiction|done].
Qed.

Lemma C6_all_zero_sentinel_witness :
  all_zero (json.mkResult 0 f64_0) /\
  (Part000.objective
     (evaluator (Exited 0) (Some (record_text "best_iteration" "0" "best_va_loss" "0.0")))
     (example_trial 7) empty_world).1
  = (f64_m1, Some "failed to open json meta").
Proof.
  assert (Hz : all_zero (json.mkResult 0 f64_0)) by (split; [reflexivity|by exists false]).
  split; [exact Hz|].
  refine (proj1 (proj1 (C6_all_zero_sentinel
            (evaluator (Exited 0) (Some (record_text "best_iteration" "0" "best_va_loss" "0.0")))
            (example_trial 7) ∅ ∅ "./data/optuna/ffm-meta-7.json"
            (record_text "best_iteration" "0" "best_va_loss" "0.0") (json.mkResult 0 f64_0)
            _ _ _) Hz)).
  - vm_compute. right. left. reflexivity.
  - vm_compute. reflexivity.
  - vm_compute. reflexivity.
Defined.

(** C2 does not hold as stated: the struct is tagged [best_va_loss], so a
    file whose score is under the key [best_score] decodes to the loss 0;
    with best_iteration 42 the sentinel does not fire, and the trial
    completes with value 0 and attribute 42. *)
Lemma C2_best_score_key_is_skipped :
  (Part000.objective
     (evaluator (Exited 0) (Some (record_text "best_iteration" "42" "best_score" "0.1834")))
     (example_trial 7) empty_world).1 = (f64_0, None) /\
  attrs (Part000.objective
     (evaluator (Exited 0) (Some (record_text "best_iteration" "42" "best_score" "0.1834")))
     (example_trial 7) empty_world).2 !! "best_iteration" = Some "42" /\
  (strconv.ParseFloat "0.1834").1 = S754_finite false 6607681373277992 (-55) /\
  f64_0 <> (strconv.ParseFloat "0.1834").1.
Proof.
  split; [vm_compute; reflexivity|].
  split; [vm_compute; reflexivity|].
  split; [vm_compute; reflexivity|].
  vm_compute. discriminate.
Qed.

(** C2, amended: whenever [objective] returns a nil error (the trial
    completes), the score it returns is the [best_va_loss] decoded from the
    scratch file it read, and the attribute best_iteration holds the decoded
    best iteration provided the storage accepted it. *)
Theorem C2_complete_value_is_decoded_loss (env : Env) (trial : Trial)
    (fs ua : gmap string string) (score : float64) :
  let out := Part000.objective env trial (mkWorld fs ua []) in
  out.1 = (score, None) ->
  exists path data r,
    In (EvReadFile path true) (events out.2) /\
    files out.2 !! path = Some data /\
    json.Unmarshal data json.zero = (r, None) /\
    score = json.BestVALoss r /\
    (SetUserAttr_error trial "best_iteration" (strconv.FormatInt (json.BestIteration r)) = None ->
     attrs out.2 !! "best_iteration" = Some (strconv.FormatInt (json.BestIteration r))).
Proof.
  intros out.
  pose proof (objective_outcome env trial fs ua) as Hout. fold out in Hout.
  destruct Hout; simpl; intros Heq; simplify_eq.
  eexists _, _, _. split; [right; left; reflexivity|]. done.
Qed.

Lemma C2_complete_value_is_decoded_loss_witness :
  (Part000.objective
     (evaluator (Exited 0) (Some (record_text "best_iteration" "42" "best_va_loss" "0.1834")))
     (example_trial 7) empty_world).1
    = ((strconv.ParseFloat "0.1834").1, None) /\
  attrs (Part000.objective
     (evaluator (Exited 0) (Some (record_text "best_iteration" "42" "best_va_loss" "0.1834")))
     (example_trial 7) empty_world).2 !! "best_iteration" = Some "42" /\
  exists path data r,
    In (EvReadFile path true)
       (events (Part000.objective
          (evaluator (Exited 0) (Some (record_text "best_iteration" "42" "best_va_loss" "0.1834")))
          (example_trial 7) empty_world).2) /\
    files (Part000.objective
          (evaluator (Exited 0) (Some (record_text "best_iteration" "42" "best_va_loss" "0.1834")))
          (example_trial 7) empty_world).2 !! path = Some data /\
    json.Unmarshal data json.zero = (r, None) /\
    (strconv.ParseFloat "0.1834").1 = json.BestVALoss r /\
    (SetUserAttr_error (example_trial 7) "best_iteration"
       (strconv.FormatInt (json.BestIteration r)) = None ->
     attrs (Part000.objective
          (evaluator (Exited 0) (Some (record_text "best_iteration" "42" "best_va_loss" "0.1834")))
          (example_trial 7) empty_world).2 !! "best_iteration"
       = Some (strconv.FormatInt (json.BestIteration r))).
Proof.
  split; [vm_compute; reflexivity|].
  split; [vm_compute; reflexivity|].
  apply (C2_complete_value_is_decoded_loss
           (evaluator (Exited 0) (Some (record_text "best_iteration" "42" "best_va_loss" "0.1834")))
           (example_trial 7) ∅ ∅ (strconv.ParseFloat "0.1834").1).
  vm_compute. reflexivity.
Defined.

(** C4 does not hold as stated: a process killed because its context was
    cancelled is followed by the read of the scratch file like any other.
    When the file is not there the call returns the read error; when a record
    is there the call returns its loss with a nil error. *)
Lemma C4_killed_run_is_followed_by_the_read :
  Part000.objective (evaluator Killed None) (example_trial 7) empty_world
  = ((f64_m1,
      Some "failed to read json: open ./data/optuna/ffm-meta-7.json: no such file or directory"),
     mkWorld ∅ ∅
       [EvRun (Some StudyContext) "./ffm-train"
          ["-p"; "./data/valid2.txt"; "--auto-stop"; "--auto-stop-threshold"; "3";
           "-l"; "0.000020"; "-r"; "0.100000"; "-k"; "4"; "-t"; "500";
           "--json-meta"; "./data/optuna/ffm-meta-7.json"; "./data/train2.txt"]
          Killed;
        EvReadFile "./data/optuna/ffm-meta-7.json" false]) /\
  (Part000.objective
     (evaluator Killed (Some (record_text "best_iteration" "3" "best_va_loss" "0.5")))
     (example_trial 7) empty_world).1
  = (float64_of_decimal false 5 (-1), None).
Proof.
  split.
  - vm_compute. reflexivity.
  - vm_compute. reflexivity.
Qed.

(** C4, amended: when the process bound to the trial's context was killed,
    [objective] goes on to read the scratch file; it returns a nil error
    exactly when the file was read and holds a record that decodes and is not
    all zero, with the decoded loss as score, and -1 with an error
    otherwise. *)
Theorem C4_killed_run_outcome (env : Env) (trial : Trial) (fs ua : gmap string string)
    (path : string) (args : list string) :
  let out := Part000.objective env trial (mkWorld fs ua []) in
  In (EvRun (Some (GetContext trial)) path args Killed) (events out.2) ->
  exists p ok rest,
    events out.2
      = EvRun (Some (GetContext trial)) path args Killed :: EvReadFile p ok :: rest /\
    (out.1.2 = None <->
       exists data r,
         ok = true /\ files out.2 !! p = Some data /\
         json.Unmarshal data json.zero = (r, None) /\ ~ all_zero r /\
         out.1.1 = json.BestVALoss r) /\
    (out.1.2 <> None -> out.1.1 = f64_m1).
Proof.
  intros out.
  pose proof (objective_outcome env trial fs ua) as Hout. fold out in Hout.
  destruct Hout; simpl; intros Hin.
  - destruct Hin.
  - destruct Hin as [Hin|[Hin|[]]]; simplify_eq.
    eexists _, _, _. split; [reflexivity|]. split; [|done].
    split; [done|]. intros (?&?&?&_). discriminate.
  - destruct Hin as [Hin|[Hin|[]]]; simplify_eq.
    eexists _, _, _. split; [reflexivity|]. split; [|done].
    split; [done|]. intros (d & r' & _ & Hf' & Hd' & _). simplify_eq. same_record.
  - destruct Hin as [Hin|[Hin|[]]]; simplify_eq.
    eexists _, _, _. split; [reflexivity|]. split; [|done].
    split; [done|]. intros (d & r' & _ & Hf' & Hd' & Hnz & _). simplify_eq. same_record.
    contradiction.
  - destruct Hin as [Hin|[Hin|Hin]]; simplify_eq.
    + eexists _, _, _. split; [reflexivity|]. split; [|done].
      split; [|done]. intros _. eexists _, _. done.
    + exfalso.
      match goal with
      | F : Forall is_attr_event _ |- _ => exact (attr_events_only _ _ F Hin)
      end.
Qed.

Lemma C4_killed_run_outcome_witness :
  In (EvRun (Some StudyContext) "./ffm-train"
        ["-p"; "./data/valid2.txt"; "--auto-stop"; "--auto-stop-threshold"; "3";
         "-l"; "0.000020"; "-r"; "0.100000"; "-k"; "4"; "-t"; "500";
         "--json-meta"; "./data/optuna/ffm-meta-7.json"; "./data/train2.txt"]
        Killed)
     (events (Part000.objective (evaluator Killed None) (example_trial 7) empty_world).2) /\
  exists p ok rest,
    events (Part000.objective (evaluator Killed None) (example_trial 7) empty_world).2
      = EvRun (Some StudyContext) "./ffm-train"
          ["-p"; "./data/valid2.txt"; "--auto-stop"; "--auto-stop-threshold"; "3";
           "-l"; "0.000020"; "-r"; "0.100000"; "-k"; "4"; "-t"; "500";
           "--json-meta"; "./data/optuna/ffm-meta-7.json"; "./data/train2.txt"]
          Killed :: EvReadFile p ok :: rest.
Proof.
  assert (Hin : In (EvRun (Some StudyContext) "./ffm-train"
        ["-p"; "./data/valid2.txt"; "--auto-stop"; "--auto-stop-threshold"; "3";
         "-l"; "0.000020"; "-r"; "0.100000"; "-k"; "4"; "-t"; "500";
         "--json-meta"; "./data/optuna/ffm-meta-7.json"; "./data/train2.txt"]
        Killed)
     (events (Part000.objective (evaluator Killed None) (example_trial 7) empty_world).2)).
  { vm_compute. left. reflexivity. }
  split; [exact Hin|].
  destruct (C4_killed_run_outcome (evaluator Killed None) (example_trial 7) ∅ ∅ _ _ Hin)
    as (p & ok & rest & Hev & _).
  exists p, ok, rest. exact Hev.
Defined.

(** ** The variants of [src/main.go] *)

(** The first document drops the error of [cmd.Run] (line 60): whatever the
    exit status, a scratch file that was read and holds a record that decodes
    and is not all zero gives its loss, with a nil error. *)
Lemma Main1_exit_status_dropped (env : Env) (trial : Trial) (fs ua : gmap string string)
    (path data : string) (r : json.result) :
  let out := Main1.objective env trial (mkWorld fs ua []) in
  In (EvReadFile path true) (events out.2) ->
  files out.2 !! path = Some data ->
  json.Unmarshal data json.zero = (r, None) ->
  ~ all_zero r ->
  out.1 = (json.BestVALoss r, None).
Proof.
  intros out. subst out. oracle_paths.
  1-3: (simpl; intros []).
  unfold Main1.getMetaPath.
  run_paths; read_paths; [decode_paths; [|sentinel_paths; [|attr_paths]]|].
  all: intros Hin Hf Hd Hnz; read_event; simplify_eq; same_record; done.
Qed.

(** The second document returns the error of [cmd.Run] (lines 194-196): after
    an exit with a non-zero status, a kill or a failed start, the score is -1,
    the error is not nil, and the scratch file is not read. *)
Lemma Main2_exit_status_returned (env : Env) (trial : Trial) (fs ua : gmap string string)
    (path : string) (args : list string) (res : RunResult) :
  let out := Main2.objective env trial (mkWorld fs ua []) in
  In (EvRun None path args res) (events out.2) ->
  res <> Exited 0 ->
  out.1.1 = f64_m1 /\ out.1.2 <> None /\
  forall p ok, ~ In (EvReadFile p ok) (events out.2).
Proof.
  intros out. subst out. oracle_paths.
  1-3: (simpl; intros []).
  unfold Main2.getMetaPath.
  run_paths.
  match goal with
  | |- context [if_err ?o as _ return _ else _] => destruct o as [e|]
  end; simpl.
  - intros _ _. split; [done|]. split; [done|].
    intros p ok [Hin|[]]. discriminate.
  - read_paths; [decode_paths; [|sentinel_paths; [|attr_paths]]|].
    all: intros Hin Hne; exfalso; apply Hne.
    all: repeat (destruct Hin as [Hin|Hin]; [simplify_eq|]); try destruct Hin.
    all: by apply Hrun.
Qed.

(** C5 is broken by the second document of [src/main.go]: for a process that
    exits with status 1 after writing a valid record, the first document and
    part_000 return the decoded loss with a nil error, while the second one
    returns -1 with the error of the run and never reads the file. *)
Theorem C5_exit_status_of_early_stopping :
  (Main1.objective
     (evaluator (Exited 1) (Some (record_text "best_iteration" "42" "best_va_loss" "0.1834")))
     (example_trial 7) empty_world).1
    = ((strconv.ParseFloat "0.1834").1, None) /\
  (Part000.objective
     (evaluator (Exited 1) (Some (record_text "best_iteration" "42" "best_va_loss" "0.1834")))
     (example_trial 7) empty_world).1
    = ((strconv.ParseFloat "0.1834").1, None) /\
  Main2.objective
     (evaluator (Exited 1) (Some (record_text "best_iteration" "42" "best_va_loss" "0.1834")))
     (example_trial 7) empty_world
    = ((f64_m1, Some "exit status 1"),
       mkWorld {["./data/optuna/ffm-meta-7.json"
                   := (record_text "best_iteration" "42" "best_va_loss" "0.1834")]} ∅
         [EvRun None "./ffm-train"
            ["-p"; "./data/valid2.txt"; "--auto-stop"; "--auto-stop-threshold"; "3";
             "-l"; "0.000020"; "-r"; "0.100000"; "-k"; "4"; "-t"; "500";
             "--json-meta"; "./data/optuna/ffm-meta-7.json"; "./data/train2.txt"]
            (Exited 1)]).
Proof.
  split; [vm_compute; reflexivity|].
  split; [vm_compute; reflexivity|].
  vm_compute. reflexivity.
Qed.

(** C9: in the second document of [src/main.go], an evaluation that reaches
    the invocation runs the binary named by LIBFFM_CLI when that variable is
    set and not empty, and ./ffm-train otherwise; the arguments after the
    binary do not depend on the variable; and nothing else is run. *)
Theorem C9_binary_override (env : Env) (trial : Trial) (fs ua : gmap string string)
    (lmd eta : float64) (number : Z) :
  SuggestLogUniform trial "lambda" f64_1e_6 f64_1 = (lmd, None) ->
  SuggestLogUniform trial "eta" f64_1e_6 f64_1 = (eta, None) ->
  Number trial = (number, None) ->
  exists binary res rest,
    events (Main2.objective env trial (mkWorld fs ua [])).2
      = EvRun None binary
          [ "-p"; "./data/valid2.txt";
            "--auto-stop"; "--auto-stop-threshold"; "3";
            "-l"; strconv.FormatFloat_f lmd;
            "-r"; strconv.FormatFloat_f eta;
            "-k"; "4";
            "-t"; "500";
            "--json-meta"; Main2.getMetaPath number;
            "./data/train2.txt" ] res :: rest /\
    Forall (fun e => ~ is_run_event e) rest /\
    (forall v, environ env !! "LIBFFM_CLI" = Some v -> v <> "" -> binary = v) /\
    (environ env !! "LIBFFM_CLI" = None \/ environ env !! "LIBFFM_CLI" = Some "" ->
     binary = "./ffm-train").
Proof.
  intros Hl He Hn. unfold Main2.objective. rewrite Hl, He, Hn. simpl.
  unfold Getenv.
  set (binary := if String.eqb (default "" (environ env !! "LIBFFM_CLI")) "" then _ else _).
  assert (Hset : forall v, environ env !! "LIBFFM_CLI" = Some v -> v <> "" -> binary = v).
  { intros v Hv Hne. subst binary. rewrite Hv. simpl.
    destruct (String.eqb_spec v ""); [contradiction|reflexivity]. }
  assert (Hunset : environ env !! "LIBFFM_CLI" = None \/ environ env !! "LIBFFM_CLI" = Some ""
                   -> binary = "./ffm-train").
  { intros [Hv|Hv]; subst binary; rewrite Hv; reflexivity. }
  clearbody binary.
  run_paths.
  match goal with
  | |- context [if_err ?o as _ return _ else _] => destruct o as [e|]
  end; simpl.
  - eexists _, _, _. split; [reflexivity|]. split; [constructor|]. done.
  - read_paths; [decode_paths; [|sentinel_paths; [|attr_paths]]|].
    all: eexists _, _, _; (split; [reflexivity|]); split; [|done].
    all: repeat constructor; simpl; tauto.
Qed.

Lemma C9_binary_override_witness :
  exists res rest,
    events (Main2.objective
              (mkEnv {["LIBFFM_CLI" := "/opt/libffm/ffm-train"]}
                     (exec (evaluator (Exited 1)
                        (Some (record_text "best_iteration" "42" "best_va_loss" "0.1834")))))
              (example_trial 7) empty_world).2
      = EvRun None "/opt/libffm/ffm-train"
          [ "-p"; "./data/valid2.txt";
            "--auto-stop"; "--auto-stop-threshold"; "3";
            "-l"; "0.000020"; "-r"; "0.100000"; "-k"; "4"; "-t"; "500";
            "--json-meta"; "./data/optuna/ffm-meta-7.json";
            "./data/train2.txt" ] res :: rest.
Proof.
  destruct (C9_binary_override
              (mkEnv {["LIBFFM_CLI" := "/opt/libffm/ffm-train"]}
                     (exec (evaluator (Exited 1)
                        (Some (record_text "best_iteration" "42" "best_va_loss" "0.1834")))))
              (example_trial 7) ∅ ∅
              (float64_of_decimal false 2 (-5)) (float64_of_decimal false 1 (-1)) 7
              eq_refl eq_refl eq_refl)
    as (binary & res & rest & Hev & _ & Hset & _).
  exists res, rest. unfold empty_world.
  rewrite Hev.
  rewrite (Hset "/opt/libffm/ffm-train"); [|vm_compute; reflexivity|discriminate].
  vm_compute. reflexivity.
Defined.

(** * Properties of the goroutines of main *)

(** ** Sums over the workers *)

Lemma total_app (f : Worker -> Z) (a b : list Worker) :
  total f (a ++ b) = total f a + total f b.
Proof. induction a as [|w a IH]; simpl; lia. Qed.

Lemma total_insert (f : Worker -> Z) (ws : list Worker) (i : nat) (w w' : Worker) :
  ws !! i = Some w -> total f (<[i := w']> ws) = total f ws - f w + f w'.
Proof.
  revert i. induction ws as [|x ws IH]; intros [|i] Hi; simplify_eq/=.
  - lia.
  - rewrite (IH i Hi). lia.
Qed.

Lemma total_bound (f : Worker -> Z) (ws : list Worker) (b : Z) :
  Forall (fun w => f w <= b) ws -> total f ws <= Z.of_nat (length ws) * b.
Proof. induction 1; simpl length; simpl total; lia. Qed.

Lemma total_const (f : Worker -> Z) (ws : list Worker) (b : Z) :
  Forall (fun w => f w = b) ws -> total f ws = Z.of_nat (length ws) * b.
Proof. induction 1; simpl length; simpl total; lia. Qed.

Lemma total_active_nonneg (ws : list Worker) : 0 <= total active ws.
Proof. induction ws as [|[] ws IH]; simpl; lia. Qed.

(** ** Invariants of the steps *)

Section Invariants.

Variable objective : Env -> Trial -> World -> (float64 * option error) * World.
Variable report : list TrialRecord -> Reported.
Variable NumCPU : Z.
Variable fail_fast : bool.

Local Abbreviation step := (step objective report NumCPU fail_fast).
Local Abbreviation run := (run objective report NumCPU fail_fast).

(** A property kept by every step of a kind of action is kept by every
    schedule of such actions. *)
Lemma run_invariant (Q : Action -> bool) (P : Machine -> Prop) :
  (forall a m m', Q a = true -> P m -> step a m = Some m' -> P m') ->
  forall acts m m', forallb Q acts = true -> P m -> run acts m = Some m' -> P m'.
Proof.
  intros Hstep acts. induction acts as [|a acts IH]; intros m m' HQ HP Hrun; simpl in *.
  - by simplify_eq.
  - apply andb_true_iff in HQ as [Ha HQ].
    destruct (step a m) as [m1|] eqn:Hs; [|discriminate].
    eapply IH; [exact HQ|eapply Hstep; eassumption|exact Hrun].
Qed.

Lemma forallb_any (acts : list Action) : forallb (fun _ => true) acts = true.
Proof. induction acts; simpl; auto. Qed.

(** *** Without a signal, main stays at [wg.Wait()] *)

Lemma unsignalled_step (a : Action) (m m' : Machine) :
  quiet a = true -> unsignalled NumCPU m -> step a m = Some m' -> unsignalled NumCPU m'.
Proof.
  intros Hq (Hbuf & Hcl & Hcr & Hws & Hidx & Hpc) Hstep.
  unfold step in Hstep. destruct (alive m); [|discriminate].
  destruct m as [pc0 ds [b c] cd lc wg0 ls ws dk st lg cr]; simpl in *. subst b c cr.
  destruct a as [s| |i|i inp|]; try discriminate;
    unfold listener_step, worker_step, trial_step, main_step in Hstep; simpl in Hstep.
  - (* the listener *)
    destruct pc0; try done; destruct Hpc as [-> Hwg]; discriminate.
  - (* a worker, not evaluating *)
    destruct (ws !! i) as [w|] eqn:Hi; [|discriminate].
    assert (Hc : 0 < concurrency NumCPU).
    { destruct Hws as [->|]; [discriminate|assumption]. }
    assert (Hpc' : ls = LRecv /\ wg0 = 1 + total active ws /\ (pc0 = MWait \/ exists k, pc0 = MLoop k)).
    { destruct pc0; try done; try (destruct Hpc as (_ & -> & _); discriminate);
        destruct Hpc; eauto. }
    destruct Hpc' as (-> & -> & Hpc0).
    assert (Hkeep : forall w', active w' = active w ->
              unsignalled NumCPU (mkMachine pc0 ds (mkChan [] false) cd lc (1 + total active ws)
                             LRecv (<[i := w']> ws) dk st lg None)).
    { intros w' Hw. unfold unsignalled; simpl. repeat split; auto.
      rewrite (total_insert _ _ _ _ _ Hi), Hw.
      destruct Hpc0 as [->|[k ->]]; split; auto; lia. }
    destruct w as [|mx cnt|mx cnt err|mx cnt err].
    + destruct (concurrency NumCPU =? 0) eqn:Hz; [lia|]. simplify_eq. by apply Hkeep.
    + unfold goptuna.Optimize_returns in Hstep.
      destruct (mx <=? cnt); [|destruct cd; [|discriminate]]; simplify_eq; by apply Hkeep.
    + assert (Hdone : unsignalled NumCPU
                (mkMachine pc0 ds (mkChan [] false) cd lc (1 + total active ws - 1)
                   LRecv (<[i := WDone mx cnt err]> ws) dk st
                   (match err with Some e => lg ++ [LogOptimizeError e] | None => lg end)
                   None)).
      { unfold unsignalled; simpl. repeat split; auto.
        rewrite (total_insert _ _ _ _ _ Hi). simpl.
        destruct Hpc0 as [->|[k ->]]; split; auto; lia. }
      destruct err; simplify_eq; exact Hdone.
    + discriminate.
  - (* a worker evaluates a trial *)
    destruct (ws !! i) as [[|mx cnt|mx cnt err|mx cnt err]|] eqn:Hi; try discriminate.
    destruct (goptuna.Optimize_returns mx cnt cd); [discriminate|].
    destruct (objective _ _ _) as [[v err] w].
    assert (Hpc' : ls = LRecv /\ wg0 = 1 + total active ws /\ (pc0 = MWait \/ exists k, pc0 = MLoop k)).
    { destruct pc0; try done; try (destruct Hpc as (_ & -> & _); discriminate);
        destruct Hpc; eauto. }
    destruct Hpc' as (-> & -> & Hpc0).
    simplify_eq. unfold unsignalled; simpl. repeat split; auto.
    + destruct Hws as [->|]; [discriminate|by right].
    + assert (Hact : active (match goptuna.stops_on fail_fast err with
                             | Some e => WReturned mx (cnt + 1) (Some e)
                             | None => WOptimize mx (cnt + 1)
                             end) = 1).
      { destruct (goptuna.stops_on fail_fast err); reflexivity. }
      destruct Hpc0 as [->|[k ->]]; (split; [done|]);
        rewrite (total_insert _ _ _ _ _ Hi), Hact; simpl; lia.
  - (* main *)
    destruct pc0; try done.
    + simplify_eq. unfold unsignalled; simpl. destruct Hpc as (-> & -> & ->).
      repeat split; auto. intros i Hi. simplify_eq. lia.
    + destruct Hpc as [-> ->]. pose proof (Hidx i eq_refl) as Hi0.
      destruct (i <? concurrency NumCPU) eqn:Hlt; simplify_eq; unfold unsignalled; simpl.
      * repeat split; auto.
        { right. lia. }
        { intros k Hk. simplify_eq. lia. }
        rewrite total_app. simpl. lia.
      * repeat split; auto. intros k Hk. discriminate.
    + destruct Hpc as [-> ->].
      pose proof (total_active_nonneg ws).
      destruct (1 + total active ws =? 0) eqn:Hz; [lia|discriminate].
Qed.

(** A state of [unsignalled] in which main is at [wg.Wait()] and every
    worker has returned: nothing but a signal can move. *)
Lemma unsignalled_stuck (m : Machine) (a : Action) :
  unsignalled NumCPU m -> pc m = MWait -> forallb finished (workers m) = true ->
  quiet a = true -> step a m = None.
Proof.
  intros (Hbuf & Hcl & Hcr & Hws & Hidx & Hpc) Hwait Hfin Hq.
  unfold step. destruct (alive m); [|reflexivity].
  destruct m as [pc0 ds [b c] cd lc wg0 ls ws dk st lg cr]; simpl in *. subst.
  destruct Hpc as [-> ->].
  destruct a as [s| |i|i inp|]; try discriminate;
    unfold listener_step, worker_step, trial_step, main_step; simpl.
  - reflexivity.
  - destruct (ws !! i) as [w|] eqn:Hi; [|reflexivity].
    apply list_elem_of_lookup_2, list_elem_of_In in Hi.
    rewrite forallb_forall in Hfin. specialize (Hfin w Hi).
    destruct w; try discriminate. reflexivity.
  - destruct (ws !! i) as [w|] eqn:Hi; [|reflexivity].
    apply list_elem_of_lookup_2, list_elem_of_In in Hi.
    rewrite forallb_forall in Hfin. specialize (Hfin w Hi).
    destruct w; try discriminate. reflexivity.
  - pose proof (total_active_nonneg ws).
    destruct (1 + total active ws =? 0) eqn:Hz; [lia|reflexivity].
Qed.

(** *** The trials of a run are counted worker by worker *)

Lemma share_nonneg : 0 < concurrency NumCPU -> 0 <= 1000 ÷ concurrency NumCPU.
Proof. intros Hc. apply Z.quot_pos; lia. Qed.

Lemma counted_step (n0 : nat) (a : Action) (m m' : Machine) :
  counted NumCPU n0 m -> step a m = Some m' -> counted NumCPU n0 m'.
Proof.
  intros (Hwf & Hlen & Hws & Hpc) Hstep.
  unfold step in Hstep. destruct (alive m); [|discriminate].
  destruct m as [pc0 ds ch cd lc wg0 ls ws dk st lg cr]; simpl in *.
  destruct a as [s| |i|i inp|];
    unfold deliver, listener_step, worker_step, trial_step, main_step in Hstep;
    simpl in Hstep.
  - (* a signal *)
    repeat case_match; simplify_eq; done.
  - (* the listener *)
    repeat case_match; simplify_eq; done.
  - (* a worker, not evaluating *)
    destruct (ws !! i) as [w|] eqn:Hi; [|discriminate].
    assert (Hc : 0 < concurrency NumCPU).
    { destruct Hws as [->|]; [discriminate|assumption]. }
    pose proof (share_nonneg Hc) as Hsh.
    assert (Hw : well_counted (1000 ÷ concurrency NumCPU) w).
    { exact (Forall_lookup_1 _ _ _ _ Hwf Hi). }
    assert (Hkeep : forall w', well_counted (1000 ÷ concurrency NumCPU) w' ->
              attempts w' = attempts w -> forall wg1 lg1,
              counted NumCPU n0 (mkMachine pc0 ds ch cd lc wg1 ls (<[i := w']> ws) dk st lg1 cr)).
    { intros w' Hw' Hatt wg1 lg1. unfold counted; simpl.
      split; [by apply Forall_insert|].
      split; [rewrite (total_insert _ _ _ _ _ Hi); lia|].
      split; [by right|].
      rewrite length_insert. destruct pc0; try exact Hpc. subst ws. discriminate Hi. }
    destruct w as [|mx cnt|mx cnt err|mx cnt err]; simpl in Hw.
    + destruct (concurrency NumCPU =? 0) eqn:Hz; [lia|]. simplify_eq.
      apply Hkeep; simpl; [lia|reflexivity].
    + destruct Hw as [-> Hcnt]. unfold goptuna.Optimize_returns in Hstep.
      destruct (_ <=? cnt) eqn:Hle; [|destruct cd; [|discriminate]]; simplify_eq;
        apply Hkeep; simpl; try reflexivity; repeat split; try lia; try discriminate.
    + destruct err; simplify_eq; apply Hkeep; simpl; auto.
    + discriminate.
  - (* a worker evaluates a trial *)
    destruct (ws !! i) as [[|mx cnt|mx cnt err|mx cnt err]|] eqn:Hi; try discriminate.
    destruct (goptuna.Optimize_returns mx cnt cd) eqn:Hgo; [discriminate|].
    assert (Hlt : cnt < mx).
    { unfold goptuna.Optimize_returns in Hgo.
      destruct (mx <=? cnt) eqn:Hle; [discriminate|]. by apply Z.leb_gt. }
    destruct (objective _ _ _) as [[v err] w].
    assert (Hw : well_counted (1000 ÷ concurrency NumCPU) (WOptimize mx cnt)).
    { exact (Forall_lookup_1 _ _ _ _ Hwf Hi). }
    destruct Hw as [-> Hcnt].
    simplify_eq. unfold counted; simpl.
    split.
    { apply Forall_insert; [assumption|].
      destruct (goptuna.stops_on fail_fast err); simpl; repeat split; try lia; discriminate. }
    split.
    { rewrite length_app, (total_insert _ _ _ _ _ Hi). simpl length.
      assert (attempts (match goptuna.stops_on fail_fast err with
                        | Some e => WReturned (1000 ÷ concurrency NumCPU) (cnt + 1) (Some e)
                        | None => WOptimize (1000 ÷ concurrency NumCPU) (cnt + 1)
                        end) = cnt + 1) as ->
        by (destruct (goptuna.stops_on fail_fast err); reflexivity).
      simpl. lia. }
    split.
    { destruct Hws as [->|]; [discriminate|by right]. }
    rewrite length_insert. destruct pc0; try exact Hpc. subst ws. discriminate Hi.
  - (* main *)
    destruct pc0; simplify_eq.
    + unfold counted; simpl. repeat split; auto; simpl; lia.
    + destruct Hpc as [Hi Hn].
      destruct (i <? concurrency NumCPU) eqn:Hlt; simplify_eq; unfold counted; simpl.
      * split; [apply Forall_app; split; [assumption|repeat constructor]|].
        split; [rewrite total_app; simpl; lia|].
        split; [right; lia|].
        rewrite length_app. simpl. lia.
      * repeat split; auto. lia.
    + destruct (wg0 =? 0); simplify_eq. unfold counted; simpl. auto.
    + destruct (report st); simplify_eq; unfold counted; simpl; auto.
    + destruct ds as [|d ds]; [destruct panicking|]; simplify_eq; unfold counted; simpl; auto.
      destruct d; simpl; unfold counted; simpl; auto.
      unfold run_deferred. destruct (closed ch); simpl; auto.
Qed.

(** *** The listener cancels once *)

Lemma cancels_once_step (a : Action) (m m' : Machine) :
  cancels_once m -> step a m = Some m' -> cancels_once m'.
Proof.
  intros [Hpc Hinv] Hstep.
  unfold step in Hstep. destruct (alive m); [|discriminate].
  destruct m as [pc0 ds ch cd lc wg0 ls ws dk st lg cr]; unfold cancels_once in *; simpl in *.
  destruct a as [s| |i|i inp|];
    unfold deliver, listener_step, worker_step, trial_step, main_step, run_deferred in Hstep;
    simpl in Hstep.
  all: repeat case_match; simplify_eq/=; try done.
  all: split; [intros Heq; try discriminate; specialize (Hpc Heq); by simplify_eq|].
  all: try done; try lia.
  all: specialize (Hpc eq_refl); discriminate.
Qed.

End Invariants.

(** ** The claims about main *)

(** C3 is broken by the code: the wait group also counts the goroutine that
    listens for a signal, and [sigch] is closed only by a deferred call, so
    in a run in which no signal is delivered main never gets past
    [wg.Wait()]; once every worker has returned, nothing but a signal can
    move. *)
Theorem C3_wait_needs_a_signal (NumCPU : Z) (fail_fast : bool)
    (files0 : gmap string string) (trials0 : list TrialRecord)
    (acts : list Action) (m : Machine) :
  forallb quiet acts = true ->
  Part000.main NumCPU fail_fast files0 trials0 acts = Some m ->
  waiting m = true /\ crashed m = None /\
  (at_wait m = true -> forallb finished (workers m) = true ->
   forall a, quiet a = true -> Part000.step NumCPU fail_fast a m = None).
Proof.
  intros Hq Hrun.
  assert (Hinv : unsignalled NumCPU m).
  { eapply (run_invariant Part000.objective Part000.report NumCPU fail_fast quiet);
      [apply unsignalled_step|exact Hq| |exact Hrun].
    unfold unsignalled, Part000.start, start; simpl. repeat split; auto.
    intros i Hi. discriminate. }
  split; [|split].
  - destruct Hinv as (_ & _ & _ & _ & _ & Hpc). unfold waiting.
    destruct (pc m); try done.
  - by destruct Hinv as (_ & _ & ? & _).
  - intros Hwait Hfin a Ha. unfold Part000.step.
    eapply unsignalled_stuck; eauto.
    unfold at_wait in Hwait. destruct (pc m); try discriminate. reflexivity.
Qed.

Lemma C3_wait_needs_a_signal_witness :
  forallb quiet schedule_2cpu = true /\
  match Part000.main 2 false ∅ [] schedule_2cpu with
  | Some m =>
      at_wait m && forallb returned_nil (workers m) && (length (storage m) =? 1000)%nat = true /\
      waiting m = true /\ crashed m = None /\
      (at_wait m = true -> forallb finished (workers m) = true ->
       forall a, quiet a = true -> Part000.step 2 false a m = None)
  | None => False
  end.
Proof.
  assert (Hq : forallb quiet schedule_2cpu = true) by (vm_compute; reflexivity).
  split; [exact Hq|].
  pose proof (C3_wait_needs_a_signal 2 false ∅ [] schedule_2cpu) as Hthm.
  destruct (Part000.main 2 false ∅ [] schedule_2cpu) as [m|] eqn:Hrun.
  - split; [|exact (Hthm m Hq eq_refl)].
    assert (Hcheck : match Part000.main 2 false ∅ [] schedule_2cpu with
                     | Some m => at_wait m && forallb returned_nil (workers m)
                                 && (length (storage m) =? 1000)%nat
                     | None => false
                     end = true) by (vm_compute; reflexivity).
    rewrite Hrun in Hcheck. exact Hcheck.
  - assert (Hsome : match Part000.main 2 false ∅ [] schedule_2cpu with
                    | Some _ => true
                    | None => false
                    end = true) by (vm_compute; reflexivity).
    rewrite Hrun in Hsome. discriminate.
Defined.

(** C1 does not hold as stated: on four processors each of the three
    workers is handed 1000 / 3 = 333 trials when it starts, and a run without
    any cancellation in which every worker returns nil has attempted 999
    trials, not 1000. *)
Lemma C1_four_processors_attempt_999 :
  match Part000.main 4 false ∅ [] schedule_4cpu with
  | Some m =>
      negb (ctx_done m) && forallb returned_nil (workers m)
      && forallb (quota_is 333) (workers m)
      && (length (workers m) =? 3)%nat
      && (length (storage m) =? 999)%nat
      && forallb goptuna.is_complete (storage m)
  | None => false
  end = true /\
  999 <> 1000.
Proof. split; [vm_compute; reflexivity|discriminate]. Qed.

(** C1, amended: the budget of 1000 is shared out up front.  Every worker is
    handed the same count, 1000 / concurrency, when it starts, and counts its
    own trials; the trials attempted in a run are those the workers counted,
    at most concurrency * (1000 / concurrency), which is at most 1000; when
    every worker has returned nil they are exactly that many, and that is
    1000 exactly when concurrency divides 1000. *)
Theorem C1_budget_is_shared_out_up_front (NumCPU : Z) (fail_fast : bool)
    (files0 : gmap string string) (trials0 : list TrialRecord)
    (acts : list Action) (m : Machine) :
  Part000.main NumCPU fail_fast files0 trials0 acts = Some m ->
  let c := Z.max 0 (concurrency NumCPU) in
  let share := 1000 ÷ concurrency NumCPU in
  let attempted := Z.of_nat (length (storage m)) - Z.of_nat (length trials0) in
  Forall (fun w => quota w = None \/ quota w = Some share) (workers m) /\
  attempted = total attempts (workers m) /\
  attempted <= c * share /\
  c * share <= 1000 /\
  (spawned m = true -> forallb returned_nil (workers m) = true -> attempted = c * share) /\
  (0 < c -> (c * share = 1000 <-> 1000 mod c = 0)).
Proof.
  intros Hrun c share attempted.
  assert (Hinv : counted NumCPU (length trials0) m).
  { eapply (run_invariant Part000.objective Part000.report NumCPU fail_fast (fun _ => true));
      [intros a m0 m1 _; apply counted_step|apply forallb_any| |exact Hrun].
    unfold counted, Part000.start, start; simpl. repeat split; auto. lia. }
  destruct Hinv as (Hwf & Hlen & Hws & Hpc).
  assert (Hquota : Forall (fun w => quota w = None \/ quota w = Some share) (workers m)).
  { eapply Forall_impl; [exact Hwf|]. intros [] Hw; simpl in *; intuition (subst; auto). }
  assert (Hatt : attempted = total attempts (workers m)) by (subst attempted; lia).
  assert (Hn : Z.of_nat (length (workers m)) <= c).
  { subst c. destruct (pc m); try lia. rewrite Hpc. simpl. lia. }
  assert (Hfull : spawned m = true -> Z.of_nat (length (workers m)) = c).
  { unfold spawned. destruct (pc m); try discriminate; intros _; exact Hpc. }
  destruct (Z.max_spec 0 (concurrency NumCPU)) as [[Hc Hm]|[Hc Hm]]; fold c in Hm.
  - (* at least one worker is to be started *)
    assert (Hs : 0 <= share /\ c * share <= 1000).
    { subst share. rewrite Hm, Z.quot_div_nonneg by lia.
      split; [apply Z.div_pos; lia|apply Z.mul_div_le; lia]. }
    destruct Hs as [Hs0 Hs1].
    assert (Hle : Forall (fun w => attempts w <= share) (workers m)).
    { eapply Forall_impl; [exact Hwf|]. intros [] Hw; simpl in *; lia. }
    pose proof (total_bound attempts (workers m) share Hle) as Hb.
    repeat split; try assumption.
    + rewrite Hatt. nia.
    + intros Hsp Hnil. rewrite Hatt, <- (Hfull Hsp).
      rewrite (total_const attempts (workers m) share); [lia|].
      rewrite forallb_forall in Hnil.
      apply Forall_forall. intros w Hw.
      pose proof (Hnil w (proj1 (list_elem_of_In _ _) Hw)) as Hr.
      eapply Forall_forall in Hwf; [|exact Hw].
      destruct w as [| | |mx cnt [e|]]; try discriminate. simpl in *.
      destruct Hwf as (-> & _ & Heq). by apply Heq.
    + intros Heq. subst share. rewrite Hm in *. rewrite Z.quot_div_nonneg in Heq by lia.
      apply (Z.div_exact 1000 (concurrency NumCPU)); [lia|congruence].
    + intros Hmod. subst share. rewrite Hm in *. rewrite Z.quot_div_nonneg by lia.
      symmetry. apply (Z.div_exact 1000 (concurrency NumCPU)); [lia|assumption].
  - (* no worker is started *)
    assert (Hnil : workers m = []) by (destruct Hws; [assumption|lia]).
    rewrite Hnil in *. simpl in *. rewrite Hm.
    repeat split; try assumption; try lia.
Qed.

Lemma C1_budget_is_shared_out_up_front_witness :
  match Part000.main 4 false ∅ [] schedule_4cpu with
  | Some m =>
      Z.of_nat (length (storage m)) - 0 = total attempts (workers m) /\
      Z.of_nat (length (storage m)) - 0 <= 3 * (1000 ÷ 3) /\
      3 * (1000 ÷ 3) <= 1000
  | None => False
  end.
Proof.
  pose proof (C1_budget_is_shared_out_up_front 4 false ∅ [] schedule_4cpu) as Hthm.
  destruct (Part000.main 4 false ∅ [] schedule_4cpu) as [m|] eqn:Hrun.
  - destruct (Hthm m eq_refl) as (_ & Hatt & Hle & Hb & _).
    exact (conj Hatt (conj Hle Hb)).
  - assert (Hsome : match Part000.main 4 false ∅ [] schedule_4cpu with
                    | Some _ => true
                    | None => false
                    end = true) by (vm_compute; reflexivity).
    rewrite Hrun in Hsome. discriminate.
Defined.

(** C7 is broken by the code: when the storage holds no Complete trial,
    part_000 drops both errors and panics on the type assertion of a missing
    parameter, and the third document of main.go drops them and logs the
    value 0 with a nil parameter map as the result; only the first two
    documents surface the error. *)
Theorem C7_report_without_complete_trial (trials : list TrialRecord) :
  Forall (fun t => t_state t = Failed) trials ->
  Part000.report trials = Panicked "interface conversion: interface {} is not float64" /\
  Main3.report trials = Printed (LogResult f64_0 ∅) /\
  Main1.report trials = Fatal "failed to get best value" /\
  Main2.report trials = Fatal "failed to get best value".
Proof.
  intros Hall.
  assert (Hbest : goptuna.best_trial trials = None).
  { unfold goptuna.best_trial.
    assert (Hgen : forall acc,
               fold_left
                 (fun acc t =>
                    if goptuna.is_complete t then
                      match acc with
                      | None => Some t
                      | Some b =>
                          if SFltb (goptuna.value_of t) (goptuna.value_of b) then Some t else acc
                      end
                    else acc) trials acc = acc).
    { induction Hall as [|t ts Ht _ IH]; intros acc; simpl; [reflexivity|].
      unfold goptuna.is_complete. rewrite Ht. apply IH. }
    apply Hgen. }
  unfold Part000.report, Main3.report, Main1.report, Main2.report,
    goptuna.GetBestValue, goptuna.GetBestParams.
  rewrite Hbest. simpl. done.
Qed.

Lemma C7_report_without_complete_trial_witness :
  Forall (fun t => t_state t = Failed) [mkTrialRecord 0 Failed None ∅ ∅] /\
  Part000.report [mkTrialRecord 0 Failed None ∅ ∅]
    = Panicked "interface conversion: interface {} is not float64" /\
  Main3.report [mkTrialRecord 0 Failed None ∅ ∅] = Printed (LogResult f64_0 ∅).
Proof.
  assert (Hall : Forall (fun t => t_state t = Failed) [mkTrialRecord 0 Failed None ∅ ∅])
    by (repeat constructor).
  split; [exact Hall|].
  destruct (C7_report_without_complete_trial _ Hall) as (Hp & Hm & _).
  exact (conj Hp Hm).
Defined.

(** C8 is broken by the code: [close(sigch)] is deferred without a
    [signal.Stop], so a second signal delivered after main has begun to
    return is sent on a closed channel and the program panics.  Up to then
    the listener has cancelled once, for the first signal. *)
Theorem C8_second_signal_after_close :
  match Part000.main 2 false ∅ [earlier_trial] schedule_two_signals with
  | Some m =>
      crashed m = Some "send on closed channel" /\
      listener_cancels m = 1%nat /\
      log m = [LogSignal SIGINT; LogOptimizeError "context canceled";
               LogBest (float64_of_decimal false 25 (-2))
                       (float64_of_decimal false 2 (-5))
                       (float64_of_decimal false 1 (-1))
                       (float64_of_decimal false 4 0)]
  | None => False
  end /\
  match Main3.main 2 false ∅ [] schedule_two_signals with
  | Some m =>
      crashed m = Some "send on closed channel" /\
      listener_cancels m = 1%nat /\
      log m = [LogSignal SIGINT; LogOptimizeError "context canceled"; LogResult f64_0 ∅]
  | None => False
  end.
Proof. split; vm_compute; done. Qed.

(** In every run the listener calls [cancel()] at most once. *)
Lemma listener_cancels_at_most_once (NumCPU : Z) (fail_fast : bool)
    (files0 : gmap string string) (trials0 : list TrialRecord)
    (acts : list Action) (m : Machine) :
  Part000.main NumCPU fail_fast files0 trials0 acts = Some m ->
  (listener_cancels m <= 1)%nat.
Proof.
  intros Hrun.
  assert (Hinv : cancels_once m).
  { eapply (run_invariant Part000.objective Part000.report NumCPU fail_fast (fun _ => true));
      [intros a m0 m1 _; apply cancels_once_step|apply forallb_any| |exact Hrun].
    unfold cancels_once, Part000.start, start; simpl. auto. }
  destruct Hinv as [_ Hinv]. destruct (listener m); lia.
Qed.
